(** * RemotePython: the session class of [src/main.py]

    The class drives a Python runtime injected into a foreign process.  Its
    public methods ([__init__], [run], [set_python_path], [cleanup],
    [__call__]) and the two private methods that the file defines
    ([_initialize_process], [_inject_and_initialize]) are embedded below as
    computations in a small state / exception / trace monad.

    The class also calls methods that the file never defines
    ([_inject_dll], [_execute_remote], [_close_process], ...), two pywin32
    functions and [pathlib.Path].  They are the fields of the record
    [Platform]: every theorem about a method of the class is stated for an
    arbitrary platform over an arbitrary world type.

    Scope.  An exception of the model is one that derives from
    [Exception], which is what the [except Exception] clauses of the file
    handle; signals that derive from [BaseException] only
    ([KeyboardInterrupt], [SystemExit]) are not represented, and every
    statement about a failure or an exception is about the former.  The
    undefined methods act on the world and do not rebind the attributes
    that the file assigns.  The diagnostic [print] of [cleanup] does not
    fail. *)

From Stdlib Require Import Ascii ZArith List Bool.
From stdpp Require Import base option list strings gmap.
Import ListNotations.

(** ** Python values and exceptions *)

(** The dynamically typed values that flow through the class. *)
Inductive pyval : Type :=
  | PyNone
  | PyBool (b : bool)
  | PyInt (z : Z)
  | PyStr (s : string).

(** Python truth value, as used by [not x] and [x or y]. *)
Definition truthy (v : pyval) : bool :=
  match v with
  | PyNone => false
  | PyBool b => b
  | PyInt z => negb (Z.eqb z 0)
  | PyStr s => negb (String.eqb s "")
  end.

(** [isinstance(v, str)]. *)
Definition isinstance_str (v : pyval) : bool :=
  match v with
  | PyStr _ => true
  | _ => false
  end.

(** The exception classes.  The first three are declared by the file; the
    others are named by their Python class name. *)
Inductive exc_class : Type :=
  | RemotePythonError
  | InjectionError
  | InitializationError
  | TypeError
  | AttributeError
  | OtherException (name : string).

(** [issubclass(c, RemotePythonError)]: the two declared subclasses. *)
Definition is_RemotePythonError (c : exc_class) : bool :=
  match c with
  | RemotePythonError | InjectionError | InitializationError => true
  | _ => false
  end.

(** [isinstance(e, InitializationError)] on the class. *)
Definition is_InitializationError (c : exc_class) : bool :=
  match c with
  | InitializationError => true
  | _ => false
  end.

(** An exception instance: its class and [str(e)].  Every exception of the
    model derives from [Exception], so [except Exception] catches it. *)
Record exc : Type := Exc { exc_cls : exc_class; exc_msg : string }.

Inductive result (A : Type) : Type :=
  | Return (a : A)
  | Raise (e : exc).
Arguments Return {A} a.
Arguments Raise {A} e.

(** ** The session object *)

(** The [ProcessInfo] dataclass. *)
Record ProcessInfo : Type := mkProcessInfo {
  pid : Z;
  handle : pyval;
  executable : pyval
}.

(** The instance attributes of a [RemotePython] object.  An attribute that
    has not been assigned is [None]: [hasattr] is [is_Some]. *)
Record RemotePython : Type := mkRemotePython {
  _process : option ProcessInfo;
  _dll_path : option pyval;
  _proc_cache : option pyval;
  _remote_dll : option pyval;
  _debug : option pyval
}.

(** The object as [__init__] receives it: no attribute assigned yet. *)
Definition fresh_object : RemotePython :=
  mkRemotePython None None None None None.

(** ** Calls that leave the file *)

(** One entry per call of a function that [src/main.py] does not define,
    with the arguments the call passes. *)
Inductive Event : Type :=
  | EvOpenProcess (access : Z) (inherit : bool) (pid : Z)
  | EvGetModuleFileNameEx (handle : pyval) (module : Z)
  | EvGetDefaultPythonDll
  | EvInitializeCache (shelf_name : pyval)
  | EvInjectDll (dll_path : pyval)
  | EvIsPythonInjected
  | EvInitializePython
  | EvIsPythonInitialized
  | EvGetProcAddress (name : string)
  | EvExecuteRemote (name : string) (args : list pyval)
  | EvUnloadDll (module : pyval)
  | EvCloseProcess
  | EvCloseCache
  | EvPrint (text : string).

Definition is_print (ev : Event) : bool :=
  match ev with
  | EvPrint _ => true
  | _ => false
  end.

Definition is_close_process (ev : Event) : bool :=
  match ev with
  | EvCloseProcess => true
  | _ => false
  end.

(** [win32con.PROCESS_ALL_ACCESS]. *)
Definition PROCESS_ALL_ACCESS : Z := 0x1F0FFF.

(** The functions the class relies on and does not define.  [W] is the
    state of everything outside the object (the target process, the cache
    file, ...).  The file assigns the attributes of the object itself,
    from the values these functions return; accordingly an undefined
    method reads the object and acts on the world, and does not rebind
    the attributes. *)
Record Platform (W : Type) : Type := mkPlatform {
  OpenProcess : Z -> bool -> Z -> W -> result pyval * W;
  GetModuleFileNameEx : pyval -> Z -> W -> result pyval * W;
  _get_default_python_dll : RemotePython -> W -> result pyval * W;
  _initialize_cache : pyval -> RemotePython -> W -> result pyval * W;
  _inject_dll : pyval -> RemotePython -> W -> result pyval * W;
  is_python_injected : RemotePython -> W -> result pyval * W;
  _initialize_python : RemotePython -> W -> result pyval * W;
  is_python_initialized : RemotePython -> W -> result pyval * W;
  _get_proc_address : string -> RemotePython -> W -> result pyval * W;
  _execute_remote : string -> list pyval -> RemotePython -> W -> result pyval * W;
  _unload_dll : pyval -> RemotePython -> W -> result pyval * W;
  _close_process : RemotePython -> W -> result pyval * W;
  _close_cache : RemotePython -> W -> result pyval * W;
  (** [str(Path(p))] *)
  Path_str : string -> string
}.
Arguments OpenProcess {W} _ _ _ _ _.
Arguments GetModuleFileNameEx {W} _ _ _ _.
Arguments _get_default_python_dll {W} _ _ _.
Arguments _initialize_cache {W} _ _ _ _.
Arguments _inject_dll {W} _ _ _ _.
Arguments is_python_injected {W} _ _ _.
Arguments _initialize_python {W} _ _ _.
Arguments is_python_initialized {W} _ _ _.
Arguments _get_proc_address {W} _ _ _ _.
Arguments _execute_remote {W} _ _ _ _ _.
Arguments _unload_dll {W} _ _ _ _.
Arguments _close_process {W} _ _ _.
Arguments _close_cache {W} _ _ _.
Arguments Path_str {W} _ _.

(** ** The monad: object and world state, exceptions, trace of calls *)

Record St (W : Type) : Type := mkSt { obj : RemotePython; world : W }.
Arguments mkSt {W} _ _.
Arguments obj {W} _.
Arguments world {W} _.

Record Out (W A : Type) : Type := mkOut {
  res : result A;
  st : St W;
  trace : list Event
}.
Arguments mkOut {W A} _ _ _.
Arguments res {W A} _.
Arguments st {W A} _.
Arguments trace {W A} _.

Definition M (W A : Type) : Type := St W -> Out W A.

Definition ret {W A} (a : A) : M W A := fun s => mkOut (Return a) s [].

Definition raise {W A} (e : exc) : M W A := fun s => mkOut (Raise e) s [].

Definition bind {W A B} (m : M W A) (k : A -> M W B) : M W B :=
  fun s =>
    match m s with
    | mkOut (Return a) s1 t1 =>
        match k a s1 with
        | mkOut r s2 t2 => mkOut r s2 (t1 ++ t2)
        end
    | mkOut (Raise e) s1 t1 => mkOut (Raise e) s1 t1
    end.

(** [try: m  except Exception as e: h e].  Every [exc] derives from
    [Exception], so the handler takes each of them. *)
Definition try_except {W A} (m : M W A) (h : exc -> M W A) : M W A :=
  fun s =>
    match m s with
    | mkOut (Return a) s1 t1 => mkOut (Return a) s1 t1
    | mkOut (Raise e) s1 t1 =>
        match h e s1 with
        | mkOut r s2 t2 => mkOut r s2 (t1 ++ t2)
        end
    end.

(** A call of a platform function on the world. *)
Definition extern {W} (ev : Event) (f : W -> result pyval * W) : M W pyval :=
  fun s =>
    match f (world s) with
    | (r, w') => mkOut r (mkSt (obj s) w') [ev]
    end.

(** A call of an undefined method [self.f(...)]: it sees the object. *)
Definition method {W} (ev : Event)
    (f : RemotePython -> W -> result pyval * W) : M W pyval :=
  fun s => extern ev (f (obj s)) s.

(** [self.attr]: raises [AttributeError] when the attribute is unset. *)
Definition getattr {W A} (name : string) (proj : RemotePython -> option A)
    : M W A :=
  fun s =>
    match proj (obj s) with
    | Some v => ret v s
    | None =>
        raise (Exc AttributeError
          ("'RemotePython' object has no attribute '" +:+ name +:+ "'")) s
    end.

(** [self.attr = v]. *)
Definition setattr {W} (upd : RemotePython -> RemotePython) : M W unit :=
  fun s => mkOut (Return tt) (mkSt (upd (obj s)) (world s)) [].

(** [print(text)]: the line is written; writing it does not fail. *)
Definition print {W} (text : string) : M W unit :=
  fun s => mkOut (Return tt) s [EvPrint text].

Declare Scope py_scope.
Delimit Scope py_scope with py.
Notation "x <- m ;; k" := (bind m (fun x => k))
  (at level 100, m at next level, right associativity) : py_scope.
Notation "m ;;; k" := (bind m (fun _ => k))
  (at level 100, right associativity) : py_scope.
Open Scope py_scope.

(** [hasattr(self, attr)]. *)
Definition hasattr {W A} (proj : RemotePython -> option A) : M W bool :=
  fun s => ret (match proj (obj s) with Some _ => true | None => false end) s.

(** [sep.join(xs)]. *)
Fixpoint join (sep : string) (xs : list string) : string :=
  match xs with
  | [] => ""
  | [x] => x
  | x :: rest => x +:+ sep +:+ join sep rest
  end.

(** ** The methods of [RemotePython] *)

Section Methods.
Context {W : Type} (P : Platform W).

(** [_initialize_process] (lines 61-72). *)
Definition _initialize_process (pid : Z) : M W ProcessInfo :=
  try_except
    (handle <- extern (EvOpenProcess PROCESS_ALL_ACCESS false pid)
                      (OpenProcess P PROCESS_ALL_ACCESS false pid) ;;
     exe_path <- extern (EvGetModuleFileNameEx handle 0)
                        (GetModuleFileNameEx P handle 0) ;;
     ret (mkProcessInfo pid handle exe_path))
    (fun e =>
       raise (Exc RemotePythonError
                  ("Failed to initialize process: " +:+ exc_msg e))).

(** [cleanup] (lines 124-135).  Only the remote finalize and the unload
    sit inside the [try]; the two close calls follow it. *)
Definition cleanup : M W pyval :=
  has_dll <- hasattr _remote_dll ;;
  (if has_dll then
     try_except
       (method (EvExecuteRemote "Py_Finalize" [])
               (_execute_remote P "Py_Finalize" []) ;;;
        dll <- getattr "_remote_dll" _remote_dll ;;
        method (EvUnloadDll dll) (_unload_dll P dll) ;;;
        ret tt)
       (fun e =>
          has_debug <- hasattr _debug ;;
          if has_debug then
            dbg <- getattr "_debug" _debug ;;
            if truthy dbg then print ("Cleanup error: " +:+ exc_msg e)
            else ret tt
          else ret tt)
   else ret tt) ;;;
  method EvCloseProcess (_close_process P) ;;;
  method EvCloseCache (_close_cache P) ;;;
  ret PyNone.

(** [_inject_and_initialize] (lines 74-91). *)
Definition _inject_and_initialize : M W pyval :=
  try_except
    (dll_path <- getattr "_dll_path" _dll_path ;;
     dll <- method (EvInjectDll dll_path) (_inject_dll P dll_path) ;;
     setattr (fun o => mkRemotePython (_process o) (_dll_path o)
                         (_proc_cache o) (Some dll) (_debug o)) ;;;
     injected <- method EvIsPythonInjected (is_python_injected P) ;;
     (if negb (truthy injected)
      then raise (Exc InjectionError "Python DLL injection failed")
      else ret tt) ;;;
     method EvInitializePython (_initialize_python P) ;;;
     initialized <- method EvIsPythonInitialized (is_python_initialized P) ;;
     (if negb (truthy initialized)
      then raise (Exc InitializationError "Python initialization failed")
      else ret tt) ;;;
     method (EvGetProcAddress "Py_Finalize")
            (_get_proc_address P "Py_Finalize") ;;;
     ret (PyBool true))
    (fun e =>
       cleanup ;;;
       raise (Exc RemotePythonError
                  ("Injection/initialization failed: " +:+ exc_msg e))).

(** [__init__] (lines 48-59). *)
Definition __init__ (pid : Z) (python_dll_path shelf_name : pyval)
    : M W pyval :=
  process <- _initialize_process pid ;;
  setattr (fun o => mkRemotePython (Some process) (_dll_path o)
                      (_proc_cache o) (_remote_dll o) (_debug o)) ;;;
  dll_path <- (if truthy python_dll_path then ret python_dll_path
               else method EvGetDefaultPythonDll
                           (_get_default_python_dll P)) ;;
  setattr (fun o => mkRemotePython (_process o) (Some dll_path)
                      (_proc_cache o) (_remote_dll o) (_debug o)) ;;;
  cache <- method (EvInitializeCache shelf_name)
                  (_initialize_cache P shelf_name) ;;
  setattr (fun o => mkRemotePython (_process o) (_dll_path o)
                      (Some cache) (_remote_dll o) (_debug o)) ;;;
  ok <- _inject_and_initialize ;;
  if negb (truthy ok)
  then raise (Exc InitializationError
                  "Failed to initialize remote Python environment")
  else ret PyNone.

(** [run] (lines 93-112). *)
Definition run (code : pyval) : M W pyval :=
  if negb (isinstance_str code)
  then raise (Exc TypeError "Code must be a string")
  else
    try_except
      (method (EvExecuteRemote "PyRun_SimpleString" [code])
              (_execute_remote P "PyRun_SimpleString" [code]))
      (fun e =>
         raise (Exc RemotePythonError
                    ("Code execution failed: " +:+ exc_msg e))).

(** [set_python_path] (lines 114-122). *)
Definition set_python_path (paths : list string) : M W pyval :=
  let path_str := join ";" (map (Path_str P) paths) in
  method (EvExecuteRemote "PySys_SetPath" [PyStr path_str])
         (_execute_remote P "PySys_SetPath" [PyStr path_str]) ;;;
  ret PyNone.


(** [__enter__] (lines 137-138). *)
Definition __enter__ : M W RemotePython := fun s => ret (obj s) s.

(** [__exit__] (lines 140-141). *)
Definition __exit__ : M W pyval := cleanup.

(** [__call__] (lines 143-145). *)
Definition __call__ (code : pyval) : M W pyval := run code.

(** [RemotePython(pid, python_dll_path, shelf_name)]: [__init__] on a
    new object. *)
Definition construct (pid : Z) (python_dll_path shelf_name : pyval)
    (w : W) : Out W pyval :=
  __init__ pid python_dll_path shelf_name (mkSt fresh_object w).

End Methods.

(** ** A concrete platform

    [Platform] is an interface; the executions shown below (witnesses and
    failing runs) need an inhabitant.  [sim] is a small simulated target:
    the world records whether the process handle is open, whether the
    library is loaded in the target, whether the interpreter is up and
    whether the cache is open.  A [Fault] selects the one call that fails. *)

Module Sim.

Record World : Type := mkWorld {
  handle_open : bool;
  module_loaded : bool;
  interpreter_up : bool;
  cache_open : bool
}.

Definition boot : World := mkWorld false false false false.

(** [FailRuntime]: the library loads but the runtime inside it is
    unusable, so the interpreter never comes up and every remote call
    fails. *)
Inductive Fault : Type :=
  | NoFault
  | FailOpen
  | FailCache
  | FailInject
  | FailRuntime
  | FailExecute
  | FailCloseProcess.

Definition OSError (msg : string) : exc := Exc (OtherException "OSError") msg.

(** ** [str(PureWindowsPath(p))] on drive-letter, rooted and relative paths

    The fragment of pathlib's Windows flavour used by the examples:
    [/] becomes [\], a leading drive letter with colon is the drive, a
    leading separator is the root, empty and [.] components disappear,
    and the empty path prints as [.].  Paths that begin with two
    separators (UNC shares, extended-length prefixes) are outside the
    fragment. *)

Definition sep : ascii := "\"%char.
Definition altsep : ascii := "/"%char.

Fixpoint replace_altsep (s : string) : string :=
  match s with
  | EmptyString => EmptyString
  | String c rest =>
      String (if Ascii.eqb c altsep then sep else c) (replace_altsep rest)
  end.

(** [s.split(sep)]. *)
Fixpoint split_sep (s : string) : list string :=
  match s with
  | EmptyString => [EmptyString]
  | String c rest =>
      if Ascii.eqb c sep then EmptyString :: split_sep rest
      else match split_sep rest with
           | [] => [String c EmptyString]
           | x :: xs => String c x :: xs
           end
  end.

(** [s.lstrip(sep)]. *)
Fixpoint lstrip_sep (s : string) : string :=
  match s with
  | String c rest => if Ascii.eqb c sep then lstrip_sep rest else s
  | EmptyString => EmptyString
  end.

Definition is_drive_letter (c : ascii) : bool :=
  let n := nat_of_ascii c in
  (Nat.leb 65 n && Nat.leb n 90) || (Nat.leb 97 n && Nat.leb n 122).

(** [splitroot]: drive, root and the rest. *)
Definition splitroot (part : string) : string * string * string :=
  let '(drv, part1) :=
    match part with
    | String first (String ":" rest) =>
        if is_drive_letter first
        then (String first (String ":" EmptyString), rest)
        else (EmptyString, part)
    | _ => (EmptyString, part)
    end in
  match part1 with
  | String c _ =>
      if Ascii.eqb c sep
      then (drv, String sep EmptyString, lstrip_sep part1)
      else (drv, EmptyString, part1)
  | EmptyString => (drv, EmptyString, part1)
  end.

Definition keep_component (x : string) : bool :=
  negb (String.eqb x "") && negb (String.eqb x ".").

Definition win_path_str (p : string) : string :=
  let '(drv, root, rel) := splitroot (replace_altsep p) in
  let tail := join (String sep EmptyString)
                   (List.filter keep_component (split_sep rel)) in
  let text := drv +:+ root +:+ tail in
  if String.eqb text "" then "." else text.

(** ** The simulated target *)

Definition fault_eqb (a b : Fault) : bool :=
  match a, b with
  | NoFault, NoFault | FailOpen, FailOpen | FailCache, FailCache
  | FailInject, FailInject | FailRuntime, FailRuntime
  | FailExecute, FailExecute | FailCloseProcess, FailCloseProcess => true
  | _, _ => false
  end.

(** A remote call needs an open handle and a loaded library. *)
Definition remote_call (f : Fault) (name : string) (w : World)
    : result pyval * World :=
  if negb (handle_open w) then (Raise (OSError "The handle is invalid"), w)
  else if negb (module_loaded w)
  then (Raise (OSError "The specified procedure could not be found"), w)
  else if fault_eqb f FailExecute || fault_eqb f FailRuntime
  then (Raise (OSError "remote thread failed"), w)
  else if String.eqb name "Py_Finalize"
  then (Return (PyInt 0),
        mkWorld (handle_open w) (module_loaded w) false (cache_open w))
  else (Return (PyInt 0), w).

Definition sim (f : Fault) : Platform World := {|
  OpenProcess := fun _ _ pid w =>
    if fault_eqb f FailOpen
    then (Raise (OSError "The parameter is incorrect"), w)
    else (Return (PyInt 500),
          mkWorld true (module_loaded w) (interpreter_up w) (cache_open w));
  GetModuleFileNameEx := fun _ _ w => (Return (PyStr "C:\target.exe"), w);
  _get_default_python_dll := fun _ w => (Return (PyStr "python311.dll"), w);
  _initialize_cache := fun _ _ w =>
    if fault_eqb f FailCache
    then (Raise (OSError "cannot open the cache file"), w)
    else (Return (PyStr "shelf"),
          mkWorld (handle_open w) (module_loaded w) (interpreter_up w) true);
  _inject_dll := fun _ _ w =>
    if fault_eqb f FailInject
    then (Raise (OSError "remote allocation failed"), w)
    else (Return (PyInt 1879048192),
          mkWorld (handle_open w) true (interpreter_up w) (cache_open w));
  is_python_injected := fun _ w => (Return (PyBool (module_loaded w)), w);
  _initialize_python := fun _ w =>
    if fault_eqb f FailRuntime then (Return PyNone, w)
    else (Return PyNone,
          mkWorld (handle_open w) (module_loaded w) true (cache_open w));
  is_python_initialized := fun _ w =>
    (Return (PyBool (interpreter_up w)), w);
  _get_proc_address := fun _ _ w => (Return (PyInt 1879052288), w);
  _execute_remote := fun name _ _ w => remote_call f name w;
  _unload_dll := fun _ _ w =>
    (Return PyNone,
     mkWorld (handle_open w) false (interpreter_up w) (cache_open w));
  _close_process := fun _ w =>
    if fault_eqb f FailCloseProcess
    then (Raise (OSError "CloseHandle failed"), w)
    else (Return PyNone,
          mkWorld false (module_loaded w) (interpreter_up w) (cache_open w));
  _close_cache := fun _ w =>
    (Return PyNone,
     mkWorld (handle_open w) (module_loaded w) (interpreter_up w) false);
  Path_str := win_path_str
|}.

(** A stub target in the manner of a unit-test double: every call
    succeeds, whatever was closed before. *)
Definition stub : Platform unit := {|
  OpenProcess := fun _ _ _ w => (Return (PyInt 500), w);
  GetModuleFileNameEx := fun _ _ w => (Return (PyStr "C:\target.exe"), w);
  _get_default_python_dll := fun _ w => (Return (PyStr "python311.dll"), w);
  _initialize_cache := fun _ _ w => (Return (PyStr "shelf"), w);
  _inject_dll := fun _ _ w => (Return (PyInt 1879048192), w);
  is_python_injected := fun _ w => (Return (PyBool true), w);
  _initialize_python := fun _ w => (Return PyNone, w);
  is_python_initialized := fun _ w => (Return (PyBool true), w);
  _get_proc_address := fun _ _ w => (Return (PyInt 1879052288), w);
  _execute_remote := fun _ _ _ w => (Return (PyInt 0), w);
  _unload_dll := fun _ _ w => (Return PyNone, w);
  _close_process := fun _ w => (Return PyNone, w);
  _close_cache := fun _ w => (Return PyNone, w);
  Path_str := win_path_str
|}.

(** The session that a successful construction against process 1234
    leaves behind, under a given fault. *)
Definition ready (f : Fault) : St World :=
  st (construct (sim f) 1234 PyNone PyNone boot).

End Sim.

(** ** Address resolution and its cache

    [_inject_and_initialize] calls [self._get_proc_address("Py_Finalize")]
    "to cache Py_Finalize for cleanup", but the method itself is not
    defined in [src/main.py]. *)

Module Resolver.

Record RemoteModule : Type := mkRemoteModule {
  baseAddress : Z;
  libraryPath : string
}.

(** Modelled from the spec: the symbol cache of sections 3 and 4.3, which
    the file only names ([_proc_cache]).  The resolver's state is the
    in-process cache and the persistent store, both keyed by (library
    path, symbol name) and holding offsets relative to the module base,
    and the number of export-table parses performed so far. *)
Record State : Type := mkState {
  memo : gmap (string * string) Z;
  store : gmap (string * string) Z;
  parses : nat
}.

Definition fresh : State := mkState ∅ ∅ 0.

(** Modelled from the spec: the cache lookup of section 4.3, absent from
    the file; the in-process cache is consulted before the store. *)
Definition cached (st : State) (key : string * string) : option Z :=
  match memo st !! key with
  | Some off => Some off
  | None => store st !! key
  end.

Definition SymbolNotFoundError (name : string) : exc :=
  Exc (OtherException "SymbolNotFoundError") name.

Section Resolve.
(** The export table of the library at a path, as the local read-only
    load exposes it: the offset of each exported symbol. *)
Variable exports : string -> string -> option Z.

(** Modelled from the spec: [resolveAddress] of section 4.3, the
    behaviour of the undefined method [_get_proc_address].  Lookup
    (library path, symbol) in the cache; on a hit the address is the
    module base plus the cached offset; on a miss the export table is
    parsed, an absent symbol fails with [SymbolNotFoundError], and the
    offset found is stored in both the in-process cache and the
    persistent store. *)
Definition resolveAddress (m : RemoteModule) (symbolName : string)
    (st : State) : result Z * State :=
  let key := (libraryPath m, symbolName) in
  match cached st key with
  | Some off => (Return (baseAddress m + off)%Z, st)
  | None =>
      match exports (libraryPath m) symbolName with
      | Some off =>
          (Return (baseAddress m + off)%Z,
           mkState (<[key := off]> (memo st)) (<[key := off]> (store st))
                   (S (parses st)))
      | None =>
          (Raise (SymbolNotFoundError symbolName),
           mkState (memo st) (store st) (S (parses st)))
      end
  end.
End Resolve.

(** An export table for the examples. *)
Definition python311_exports (path symbolName : string) : option Z :=
  if String.eqb path "C:\Python311\python311.dll" then
    if String.eqb symbolName "Py_Finalize" then Some 4096%Z
    else if String.eqb symbolName "PyRun_SimpleString" then Some 8192%Z
    else None
  else None.

Definition python311 : RemoteModule :=
  mkRemoteModule 1879048192 "C:\Python311\python311.dll".

End Resolver.

(** ** Classes of calls *)

Definition is_open_process (ev : Event) : bool :=
  match ev with
  | EvOpenProcess _ _ _ => true
  | _ => false
  end.

Definition is_close_cache (ev : Event) : bool :=
  match ev with
  | EvCloseCache => true
  | _ => false
  end.

Definition is_unload (ev : Event) : bool :=
  match ev with
  | EvUnloadDll _ => true
  | _ => false
  end.

Definition is_remote_execution (ev : Event) : bool :=
  match ev with
  | EvExecuteRemote _ _ => true
  | _ => false
  end.

(** The remote finalize, as [cleanup] issues it: [Py_Finalize] without
    arguments. *)
Definition is_finalize (ev : Event) : bool :=
  match ev with
  | EvExecuteRemote name [] => String.eqb name "Py_Finalize"
  | _ => false
  end.

(** Every call that the computation [m] makes, from any state, satisfies
    [p]. *)
Definition only {W A} (p : Event -> bool) (m : M W A) : Prop :=
  forall s, forallb p (trace (m s)) = true.

(** The object after each of the four attribute assignments of the
    constructor (lines 54, 55, 56 and 77). *)
Definition with_process (o : RemotePython) (p : ProcessInfo) : RemotePython :=
  mkRemotePython (Some p) (_dll_path o) (_proc_cache o) (_remote_dll o)
                 (_debug o).

Definition with_dll_path (o : RemotePython) (v : pyval) : RemotePython :=
  mkRemotePython (_process o) (Some v) (_proc_cache o) (_remote_dll o)
                 (_debug o).

Definition with_proc_cache (o : RemotePython) (v : pyval) : RemotePython :=
  mkRemotePython (_process o) (_dll_path o) (Some v) (_remote_dll o)
                 (_debug o).

Definition with_remote_dll (o : RemotePython) (v : pyval) : RemotePython :=
  mkRemotePython (_process o) (_dll_path o) (_proc_cache o) (Some v)
                 (_debug o).

(** The calls of [cleanup]: the remote finalize, the unload, the
    diagnostic print and the two close calls. *)
Definition is_cleanup_call (ev : Event) : bool :=
  is_finalize ev || is_unload ev || is_print ev
  || is_close_process ev || is_close_cache ev.

(** The calls of the [try] block of [_inject_and_initialize]. *)
Definition is_injection_step (ev : Event) : bool :=
  match ev with
  | EvInjectDll _ | EvIsPythonInjected | EvInitializePython
  | EvIsPythonInitialized => true
  | EvGetProcAddress name => String.eqb name "Py_Finalize"
  | _ => false
  end.

(** The calls of [__init__] that come before the injection. *)
Definition is_preparation (pid : Z) (shelf_name : pyval) (ev : Event)
    : bool :=
  match ev with
  | EvOpenProcess access inherit p =>
      Z.eqb access PROCESS_ALL_ACCESS && negb inherit && Z.eqb p pid
  | EvGetModuleFileNameEx _ module => Z.eqb module 0
  | EvGetDefaultPythonDll => true
  | EvInitializeCache _ => true
  | _ => false
  end.

(** The diagnostic of [cleanup] for a swallowed exception: printed when
    [_debug] is set and true. *)
Definition diagnostic (o : RemotePython) (e : exc) : list Event :=
  match _debug o with
  | Some dbg =>
      if truthy dbg then [EvPrint ("Cleanup error: " +:+ exc_msg e)] else []
  | None => []
  end.

(** The guarded block of [cleanup] (lines 126-132) written out: the calls
    it makes and the world it leaves.  It cannot fail. *)
Definition finalize_and_unload {W} (P : Platform W) (s : St W)
    : list Event * W :=
  match _remote_dll (obj s) with
  | None => ([], world s)
  | Some dll =>
      match _execute_remote P "Py_Finalize" [] (obj s) (world s) with
      | (Raise e, w1) =>
          (EvExecuteRemote "Py_Finalize" [] :: diagnostic (obj s) e, w1)
      | (Return _, w1) =>
          match _unload_dll P dll (obj s) w1 with
          | (Return _, w2) =>
              ([EvExecuteRemote "Py_Finalize" []; EvUnloadDll dll], w2)
          | (Raise e, w2) =>
              (EvExecuteRemote "Py_Finalize" [] :: EvUnloadDll dll
                 :: diagnostic (obj s) e, w2)
          end
      end
  end.

(** ** Variants of the simulated target *)

Module Variants.
Import Sim.

(** The process opens but its module name cannot be read. *)
Definition module_name_denied : Platform World := {|
  OpenProcess := OpenProcess (sim NoFault);
  GetModuleFileNameEx := fun _ _ w => (Raise (OSError "Access is denied"), w);
  _get_default_python_dll := _get_default_python_dll (sim NoFault);
  _initialize_cache := _initialize_cache (sim NoFault);
  _inject_dll := _inject_dll (sim NoFault);
  is_python_injected := is_python_injected (sim NoFault);
  _initialize_python := _initialize_python (sim NoFault);
  is_python_initialized := is_python_initialized (sim NoFault);
  _get_proc_address := _get_proc_address (sim NoFault);
  _execute_remote := _execute_remote (sim NoFault);
  _unload_dll := _unload_dll (sim NoFault);
  _close_process := _close_process (sim NoFault);
  _close_cache := _close_cache (sim NoFault);
  Path_str := Path_str (sim NoFault)
|}.

(** The remote loader returns a base address, yet the library does not
    show up in the module list of the target. *)
Definition module_not_listed : Platform World := {|
  OpenProcess := OpenProcess (sim NoFault);
  GetModuleFileNameEx := GetModuleFileNameEx (sim NoFault);
  _get_default_python_dll := _get_default_python_dll (sim NoFault);
  _initialize_cache := _initialize_cache (sim NoFault);
  _inject_dll := _inject_dll (sim NoFault);
  is_python_injected := fun _ w => (Return (PyBool false), w);
  _initialize_python := _initialize_python (sim NoFault);
  is_python_initialized := is_python_initialized (sim NoFault);
  _get_proc_address := _get_proc_address (sim NoFault);
  _execute_remote := _execute_remote (sim NoFault);
  _unload_dll := _unload_dll (sim NoFault);
  _close_process := _close_process (sim NoFault);
  _close_cache := _close_cache (sim NoFault);
  Path_str := Path_str (sim NoFault)
|}.


(** A target whose cache cannot be opened, reported by the undefined
    [_initialize_cache] with the file's own [InitializationError]. *)
Definition cache_unavailable : Platform World := {|
  OpenProcess := OpenProcess (sim NoFault);
  GetModuleFileNameEx := GetModuleFileNameEx (sim NoFault);
  _get_default_python_dll := _get_default_python_dll (sim NoFault);
  _initialize_cache := fun _ _ w =>
    (Raise (Exc InitializationError "cache unavailable"), w);
  _inject_dll := _inject_dll (sim NoFault);
  is_python_injected := is_python_injected (sim NoFault);
  _initialize_python := _initialize_python (sim NoFault);
  is_python_initialized := is_python_initialized (sim NoFault);
  _get_proc_address := _get_proc_address (sim NoFault);
  _execute_remote := _execute_remote (sim NoFault);
  _unload_dll := _unload_dll (sim NoFault);
  _close_process := _close_process (sim NoFault);
  _close_cache := _close_cache (sim NoFault);
  Path_str := Path_str (sim NoFault)
|}.

(** A session as [__init__] has it just before the injection. *)
Definition prepared : St World :=
  mkSt (mkRemotePython
          (Some (mkProcessInfo 1234 (PyInt 500) (PyStr "C:\target.exe")))
          (Some (PyStr "python311.dll")) (Some (PyStr "shelf")) None None)
       (mkWorld true false false true).

(** A live session that has [_debug] switched on. *)
Definition ready_debug (f : Fault) : St World :=
  mkSt (mkRemotePython (_process (obj (ready f))) (_dll_path (obj (ready f)))
                       (_proc_cache (obj (ready f)))
                       (_remote_dll (obj (ready f))) (Some (PyBool true)))
       (world (ready f)).

End Variants.

(** ** Properties of the methods *)

Section Properties.
Context {W : Type} (P : Platform W).

(** *** [run] and [__call__] *)

(** C10: with an argument that is not a [str], [run] raises [TypeError]
    and nothing else happens: no call leaves the file (the trace is
    empty) and object and world are untouched. *)
Theorem run_rejects_non_string (code : pyval) (s : St W) :
  isinstance_str code = false ->
  run P code s =
    mkOut (Raise (Exc TypeError "Code must be a string")) s [].
Proof.
  intros Hcode. unfold run. rewrite Hcode. reflexivity.
Qed.

(** C9: calling the session, [s(code)], is [s.run(code)]: same result
    (value or exception), same final state, same calls. *)
Theorem call_is_run (code : pyval) (s : St W) :
  __call__ P code s = run P code s.
Proof. reflexivity. Qed.

(** What [run] does with a string: exactly one remote call, whose value
    is returned and whose exception is wrapped. *)
Lemma run_string (code : string) (s : St W) :
  let call := _execute_remote P "PyRun_SimpleString" [PyStr code]
                              (obj s) (world s) in
  run P (PyStr code) s =
    mkOut (match fst call with
           | Return v => Return v
           | Raise e => Raise (Exc RemotePythonError
                                   ("Code execution failed: " +:+ exc_msg e))
           end)
          (mkSt (obj s) (snd call))
          [EvExecuteRemote "PyRun_SimpleString" [PyStr code]].
Proof.
  unfold run, try_except, method, extern, raise. simpl.
  destruct (_execute_remote P _ _ _ _) as [[v | e] w']; simpl; reflexivity.
Qed.

(** C5: when the remote execution behind [run(code)] fails with [cause],
    [run] raises the file's execution error, a [RemotePythonError] whose
    message is "Code execution failed: " followed by [str(cause)]; the
    object keeps all its attributes and the only call made is the remote
    execution itself, so nothing is torn down. *)
Theorem run_failure_keeps_session (code : string) (s : St W)
    (cause : exc) (w' : W) :
  _execute_remote P "PyRun_SimpleString" [PyStr code] (obj s) (world s)
    = (Raise cause, w') ->
  let out := run P (PyStr code) s in
  res out = Raise (Exc RemotePythonError
                       ("Code execution failed: " +:+ exc_msg cause))
  /\ obj (st out) = obj s
  /\ world (st out) = w'
  /\ trace out = [EvExecuteRemote "PyRun_SimpleString" [PyStr code]].
Proof.
  intros Hcall out. subst out. rewrite run_string. simpl.
  rewrite Hcall. simpl. repeat split; reflexivity.
Qed.

(** *** [cleanup] *)

Ltac close_tail :=
  simpl;
  destruct (_close_process P _ _) as [[? | ?] ?]; simpl;
  [destruct (_close_cache P _ _) as [[? | ?] ?]; simpl |];
  reflexivity.

(** The guarded block of [cleanup] always completes; what it leaves
    behind is a trace [t] and a world [w1], from which the two close
    calls run unguarded. *)
Lemma cleanup_cases (s : St W) :
  exists (t : list Event) (w1 : W),
    cleanup P s =
      (let c1 := _close_process P (obj s) w1 in
       match fst c1 with
       | Raise e => mkOut (Raise e) (mkSt (obj s) (snd c1))
                          (t ++ [EvCloseProcess])
       | Return _ =>
           let c2 := _close_cache P (obj s) (snd c1) in
           mkOut (match fst c2 with
                  | Return _ => Return PyNone
                  | Raise e => Raise e
                  end)
                 (mkSt (obj s) (snd c2))
                 (t ++ [EvCloseProcess; EvCloseCache])
       end)
    /\ match _remote_dll (obj s) with
       | None => t = [] /\ w1 = world s
       | Some dll =>
           exists t', t = EvExecuteRemote "Py_Finalize" [] :: t'
       end
    /\ match _debug (obj s) with
       | None => forallb (fun ev => negb (is_print ev)) t = true
       | Some _ => True
       end
    /\ List.filter is_close_process t = [].
Proof.
  destruct s as [o w]. unfold cleanup.
  unfold bind, try_except, hasattr, getattr, method, extern, print, ret,
    raise; simpl.
  destruct (_remote_dll o) as [dll |] eqn:Hdll; simpl.
  - destruct (_execute_remote P "Py_Finalize" [] o w) as [[v | e] w1] eqn:Hf;
      simpl.
    + rewrite Hdll; simpl.
      destruct (_unload_dll P dll o w1) as [[v' | e'] w2] eqn:Hu; simpl.
      * exists [EvExecuteRemote "Py_Finalize" []; EvUnloadDll dll], w2.
        split; [close_tail |].
        split; [eauto | split; [destruct (_debug o) |]; reflexivity].
      * destruct (_debug o) as [dbg |] eqn:Hd; simpl;
          [rewrite ?Hd; simpl; destruct (truthy dbg); simpl |].
        -- exists [EvExecuteRemote "Py_Finalize" []; EvUnloadDll dll;
                   EvPrint ("Cleanup error: " +:+ exc_msg e')], w2.
           split; [close_tail |]. split; [eauto | split; [exact I |]; reflexivity].
        -- exists [EvExecuteRemote "Py_Finalize" []; EvUnloadDll dll], w2.
           split; [close_tail |]. split; [eauto | split; [exact I |]; reflexivity].
        -- exists [EvExecuteRemote "Py_Finalize" []; EvUnloadDll dll], w2.
           split; [close_tail |]. split; [eauto | split; reflexivity].
    + destruct (_debug o) as [dbg |] eqn:Hd; simpl;
        [rewrite ?Hd; simpl; destruct (truthy dbg); simpl |].
      * exists [EvExecuteRemote "Py_Finalize" [];
                EvPrint ("Cleanup error: " +:+ exc_msg e)], w1.
        split; [close_tail |]. split; [eauto | split; [exact I |]; reflexivity].
      * exists [EvExecuteRemote "Py_Finalize" []], w1.
        split; [close_tail |]. split; [eauto | split; [exact I |]; reflexivity].
      * exists [EvExecuteRemote "Py_Finalize" []], w1.
        split; [close_tail |]. split; [eauto | split; reflexivity].
  - exists [], w. split; [close_tail |].
    split; [auto | split; [destruct (_debug o) |]; reflexivity].
Qed.

(** What one invocation of [cleanup] calls, returns and lets through. *)
Lemma cleanup_summary (s : St W) :
  let out := cleanup P s in
  In EvCloseProcess (trace out)
  /\ obj (st out) = obj s
  /\ match res out with
     | Return v => v = PyNone /\ In EvCloseCache (trace out)
     | Raise e =>
         exists w, fst (_close_process P (obj s) w) = Raise e
                   \/ fst (_close_cache P (obj s) w) = Raise e
     end
  /\ match _debug (obj s) with
     | None => forallb (fun ev => negb (is_print ev)) (trace out) = true
     | Some _ => True
     end.
Proof.
  intros out. subst out.
  destruct (cleanup_cases s) as (t & w1 & Heq & _ & Hprint & _).
  rewrite Heq. clear Heq. simpl.
  destruct (_close_process P (obj s) w1) as [[v1 | e1] w2] eqn:Hc1; simpl.
  - destruct (_close_cache P (obj s) w2) as [[v2 | e2] w3] eqn:Hc2; simpl.
    + repeat split.
      * apply in_or_app. right. left. reflexivity.
      * apply in_or_app. right. right. left. reflexivity.
      * destruct (_debug (obj s)); [exact I |].
        rewrite forallb_app, Hprint. reflexivity.
    + repeat split.
      * apply in_or_app. right. left. reflexivity.
      * exists w2. right. rewrite Hc2. reflexivity.
      * destruct (_debug (obj s)); [exact I |].
        rewrite forallb_app, Hprint. reflexivity.
  - repeat split.
    + apply in_or_app. right. left. reflexivity.
    + exists w1. left. rewrite Hc1. reflexivity.
    + destruct (_debug (obj s)); [exact I |].
      rewrite forallb_app, Hprint. reflexivity.
Qed.

(** In particular [cleanup] returns whenever the two close methods
    do. *)
Lemma cleanup_returns_when_close_does (s : St W) :
  (forall o w, exists v, fst (_close_process P o w) = Return v) ->
  (forall o w, exists v, fst (_close_cache P o w) = Return v) ->
  res (cleanup P s) = Return PyNone.
Proof.
  intros Hproc Hcache.
  destruct (cleanup_summary s) as (_ & _ & Hres & _).
  destruct (res (cleanup P s)) as [v | e].
  - destruct Hres as [-> _]. reflexivity.
  - destruct Hres as [w [Hw | Hw]].
    + destruct (Hproc (obj s) w) as [v Hv]. congruence.
    + destruct (Hcache (obj s) w) as [v Hv]. congruence.
Qed.

Lemma cleanup_raises_cases (s : St W) :
  match res (cleanup P s) with
  | Return v => v = PyNone
  | Raise _ => True
  end.
Proof.
  destruct (cleanup_cases s) as (t & w1 & Heq & _).
  rewrite Heq. clear Heq. simpl.
  destruct (fst (_close_process P (obj s) w1)); simpl; [| exact I].
  destruct (fst (_close_cache P (obj s) _)); simpl; [reflexivity | exact I].
Qed.

(** One invocation of [cleanup] calls [_close_process] exactly once and
    keeps the object. *)
Lemma cleanup_once (s : St W) :
  obj (st (cleanup P s)) = obj s
  /\ List.filter is_close_process (trace (cleanup P s)) = [EvCloseProcess].
Proof.
  destruct (cleanup_cases s) as (t & w1 & Heq & _ & _ & Hclose).
  rewrite Heq. clear Heq. simpl.
  destruct (_close_process P (obj s) w1) as [[v1 | e1] w2]; simpl.
  - split; [reflexivity |].
    rewrite List.filter_app, Hclose. reflexivity.
  - split; [reflexivity |].
    rewrite List.filter_app, Hclose. reflexivity.
Qed.

(** Every invocation starts by the remote finalize when the module
    attribute is set, and by the handle close otherwise. *)
Lemma cleanup_first_call (s : St W) :
  head (trace (cleanup P s)) =
    match _remote_dll (obj s) with
    | Some _ => Some (EvExecuteRemote "Py_Finalize" [])
    | None => Some EvCloseProcess
    end.
Proof.
  destruct (cleanup_cases s) as (t & w1 & Heq & Hdll & _ & _).
  rewrite Heq. clear Heq. simpl.
  destruct (_remote_dll (obj s)).
  - destruct Hdll as [t' ->].
    destruct (fst (_close_process P (obj s) w1)); reflexivity.
  - destruct Hdll as [-> ->].
    destruct (fst (_close_process P (obj s) (world s))); reflexivity.
Qed.

(** C4, as the code has it: no method checks a lifecycle state.  After
    [cleanup], [run(code)] still makes its remote call and treats the
    outcome as on a live session: the value is returned, a failure is
    wrapped in [RemotePythonError] ("Code execution failed: ...");
    [set_python_path] still makes its remote call too and lets a failure
    through unchanged.  Neither raises an error of its own. *)
Theorem run_after_cleanup_not_guarded (code : string)
    (paths : list string) (s : St W) :
  let closed := st (cleanup P s) in
  let out := run P (PyStr code) closed in
  let call := _execute_remote P "PyRun_SimpleString" [PyStr code]
                              (obj s) (world closed) in
  let out' := set_python_path P paths closed in
  let arg := PyStr (join ";" (map (Path_str P) paths)) in
  let call' := _execute_remote P "PySys_SetPath" [arg]
                               (obj s) (world closed) in
  trace out = [EvExecuteRemote "PyRun_SimpleString" [PyStr code]]
  /\ res out = match fst call with
               | Return v => Return v
               | Raise cause =>
                   Raise (Exc RemotePythonError
                              ("Code execution failed: " +:+ exc_msg cause))
               end
  /\ trace out' = [EvExecuteRemote "PySys_SetPath" [arg]]
  /\ res out' = match fst call' with
                | Return _ => Return PyNone
                | Raise cause => Raise cause
                end.
Proof.
  intros closed out call out' arg call'.
  assert (Hobj : obj closed = obj s) by apply cleanup_once.
  subst out call out' call' arg. rewrite <- Hobj.
  rewrite run_string. simpl.
  unfold set_python_path, bind, method, extern, ret. simpl.
  destruct (_execute_remote P "PySys_SetPath" _ _ _) as [[v | e] w'];
    simpl; repeat split; reflexivity.
Qed.

(** *** [set_python_path] *)

(** C6, as the code has it: each path goes through [str(Path(p))], the
    results are joined with ";" and that string is the single argument
    of the one [PySys_SetPath] remote call.  Paths that [str(Path(p))]
    leaves as they are reach the runtime unchanged, joined with ";". *)
Theorem set_python_path_forwards (paths : list string) (s : St W) :
  trace (set_python_path P paths s) =
    [EvExecuteRemote "PySys_SetPath"
       [PyStr (join ";" (map (Path_str P) paths))]]
  /\ (Forall (fun p => Path_str P p = p) paths ->
      join ";" (map (Path_str P) paths) = join ";" paths).
Proof.
  split; [| intros Hfix].
  - unfold set_python_path, bind, method, extern, ret. simpl.
    destruct (_execute_remote P "PySys_SetPath" _ _ _) as [[v | e] w'];
      reflexivity.
  - f_equal. induction Hfix as [| p rest Hp _ IH]; simpl; [reflexivity |].
    rewrite Hp, IH. reflexivity.
Qed.

(** *** Construction *)

(** C8: when [OpenProcess] fails for the process id, construction raises
    the file's process-open error, a [RemotePythonError] whose message is
    "Failed to initialize process: " followed by [str(cause)], and the
    only call made is that [OpenProcess]: nothing is injected, resolved
    or executed remotely, and no attribute is assigned. *)
Theorem init_open_failure (pid : Z) (python_dll_path shelf_name : pyval)
    (s : St W) (cause : exc) (w' : W) :
  OpenProcess P PROCESS_ALL_ACCESS false pid (world s) = (Raise cause, w') ->
  let out := __init__ P pid python_dll_path shelf_name s in
  res out = Raise (Exc RemotePythonError
                       ("Failed to initialize process: " +:+ exc_msg cause))
  /\ trace out = [EvOpenProcess PROCESS_ALL_ACCESS false pid]
  /\ obj (st out) = obj s.
Proof.
  intros Hopen out. subst out.
  unfold __init__, _initialize_process, bind, try_except, extern, raise.
  simpl. rewrite Hopen. simpl. repeat split; reflexivity.
Qed.

Lemma bind_Return_inv {A B} (m : M W A) (k : A -> M W B) (s : St W)
    (b : B) :
  res (bind m k s) = Return b ->
  exists a, res (m s) = Return a /\ res (k a (st (m s))) = Return b.
Proof.
  unfold bind. destruct (m s) as [[a | e] s1 t1]; simpl.
  - destruct (k a s1) as [r s2 t2] eqn:Hk; simpl. intros ->.
    exists a. split; [reflexivity |]. rewrite Hk. reflexivity.
  - intros H. discriminate H.
Qed.

(** [_inject_and_initialize] returns [True] or raises; when it raises,
    [cleanup] has run in between. *)
Lemma inject_and_initialize_cases (s : St W) :
  let out := _inject_and_initialize P s in
  match res out with
  | Return v => v = PyBool true
  | Raise e =>
      exists (t0 : list Event) (s1 : St W) (cause : exc),
        trace out = t0 ++ trace (cleanup P s1)
        /\ (res (cleanup P s1) = Raise e
            \/ (res (cleanup P s1) = Return PyNone
                /\ e = Exc RemotePythonError
                         ("Injection/initialization failed: "
                          +:+ exc_msg cause)))
  end.
Proof.
  unfold _inject_and_initialize.
  match goal with
  | |- context [try_except ?m ?h] => set (body := m)
  end.
  unfold try_except. simpl.
  destruct (body s) as [[v | cause] s1 t1] eqn:Hbody; simpl.
  - assert (Hres : res (body s) = Return v) by (rewrite Hbody; reflexivity).
    subst body.
    repeat (apply bind_Return_inv in Hres;
            destruct Hres as (? & _ & Hres)).
    unfold ret in Hres. simpl in Hres. congruence.
  - unfold bind, raise.
    pose proof (cleanup_raises_cases s1) as Hc.
    destruct (cleanup P s1) as [[v | e'] s2 t2] eqn:Hcl; simpl in *.
    + exists t1, s1, cause. rewrite Hcl. simpl.
      split; [rewrite app_nil_r; reflexivity |].
      right. rewrite Hc. split; reflexivity.
    + exists t1, s1, cause. rewrite Hcl. simpl.
      split; [reflexivity |]. left. reflexivity.
Qed.

Lemma method_trace (ev : Event)
    (f : RemotePython -> W -> result pyval * W) (s : St W) :
  trace (method ev f s) = [ev].
Proof.
  unfold method, extern. destruct (f (obj s) (world s)). reflexivity.
Qed.

End Properties.

(** ** Properties of the address cache *)

Section ResolverProperties.
Import Resolver.
Variable exports : string -> string -> option Z.

(** C7: when a resolution of [symbolName] against a module returns an
    address, resolving it again returns the same address and leaves the
    resolver's state as it is, so the second resolution parses nothing:
    it is served from the cache as module base plus cached offset.  The
    first resolution parsed the export table once if the key was not
    cached and not at all otherwise, so from a cold cache the parse
    counter has advanced by exactly one after the two resolutions. *)
Theorem resolve_twice_same_address (m : RemoteModule) (symbolName : string)
    (st st1 : State) (a : Z) :
  resolveAddress exports m symbolName st = (Return a, st1) ->
  resolveAddress exports m symbolName st1 = (Return a, st1)
  /\ (exists off, cached st1 (libraryPath m, symbolName) = Some off
                  /\ a = (baseAddress m + off)%Z)
  /\ parses st1 =
       match cached st (libraryPath m, symbolName) with
       | Some _ => parses st
       | None => S (parses st)
       end.
Proof.
  unfold resolveAddress. intros H.
  destruct (cached st (libraryPath m, symbolName)) as [off |] eqn:Hhit.
  - injection H as <- <-. rewrite Hhit. eauto.
  - destruct (exports (libraryPath m) symbolName) as [off |] eqn:Hexp;
      [| discriminate H].
    injection H as <- <-.
    assert (Hnow : cached
              (mkState (<[(libraryPath m, symbolName) := off]> (memo st))
                       (<[(libraryPath m, symbolName) := off]> (store st))
                       (S (parses st)))
              (libraryPath m, symbolName) = Some off).
    { unfold cached. simpl. rewrite lookup_insert_eq. reflexivity. }
    rewrite Hnow. eauto.
Qed.

End ResolverProperties.

(** ** Further properties of the methods *)

Section Behaviour.
Context {W : Type} (P : Platform W).

(** *** Which calls a computation can make *)

Lemma only_weaken {A} (p q : Event -> bool) (m : M W A) :
  (forall ev, p ev = true -> q ev = true) -> only p m -> only q m.
Proof.
  intros Hpq Hm s. specialize (Hm s).
  rewrite forallb_forall in *. intros ev Hev. apply Hpq, Hm, Hev.
Qed.

Lemma only_ret {A} (p : Event -> bool) (a : A) : only p (ret (W := W) a).
Proof. intros s. reflexivity. Qed.

Lemma only_raise {A} (p : Event -> bool) (e : exc) :
  only p (raise (W := W) (A := A) e).
Proof. intros s. reflexivity. Qed.

Lemma only_bind {A B} (p : Event -> bool) (m : M W A) (k : A -> M W B) :
  only p m -> (forall a, only p (k a)) -> only p (bind m k).
Proof.
  intros Hm Hk s. specialize (Hm s). unfold bind.
  destruct (m s) as [[a | e] s1 t1]; simpl in *; [| exact Hm].
  specialize (Hk a s1). destruct (k a s1) as [r s2 t2]; simpl in *.
  rewrite forallb_app, Hm, Hk. reflexivity.
Qed.

Lemma only_try_except {A} (p : Event -> bool) (m : M W A)
    (h : exc -> M W A) :
  only p m -> (forall e, only p (h e)) -> only p (try_except m h).
Proof.
  intros Hm Hh s. specialize (Hm s). unfold try_except.
  destruct (m s) as [[a | e] s1 t1]; simpl in *; [exact Hm |].
  specialize (Hh e s1). destruct (h e s1) as [r s2 t2]; simpl in *.
  rewrite forallb_app, Hm, Hh. reflexivity.
Qed.

Lemma only_extern (p : Event -> bool) (ev : Event)
    (f : W -> result pyval * W) :
  p ev = true -> only p (extern ev f).
Proof.
  intros Hev s. unfold extern. destruct (f (world s)). simpl.
  rewrite Hev. reflexivity.
Qed.

Lemma only_method (p : Event -> bool) (ev : Event)
    (f : RemotePython -> W -> result pyval * W) :
  p ev = true -> only p (method ev f).
Proof. intros Hev s. unfold method. apply only_extern, Hev. Qed.

Lemma only_getattr {A} (p : Event -> bool) (name : string)
    (proj : RemotePython -> option A) :
  only p (getattr (W := W) name proj).
Proof. intros s. unfold getattr. destruct (proj (obj s)); reflexivity. Qed.

Lemma only_setattr (p : Event -> bool)
    (upd : RemotePython -> RemotePython) :
  only p (setattr (W := W) upd).
Proof. intros s. reflexivity. Qed.

Lemma only_hasattr {A} (p : Event -> bool)
    (proj : RemotePython -> option A) :
  only p (hasattr (W := W) proj).
Proof. intros s. reflexivity. Qed.

Lemma only_print (p : Event -> bool) (text : string) :
  p (EvPrint text) = true -> only p (print (W := W) text).
Proof. intros Hev s. simpl. rewrite Hev. reflexivity. Qed.

Ltac only_steps :=
  repeat first
    [ apply only_bind; [| intros ?]
    | apply only_try_except; [| intros ?]
    | apply only_ret
    | apply only_raise
    | apply only_getattr
    | apply only_setattr
    | apply only_hasattr
    | apply only_print; reflexivity
    | apply only_method; reflexivity
    | apply only_extern; reflexivity
    | match goal with
      | |- only _ (if ?b then _ else _) => destruct b
      end ].

(** [cleanup] makes no call but the remote [Py_Finalize] without
    arguments, the unload, the diagnostic print and the two close calls:
    it opens nothing, injects nothing, resolves nothing and runs no other
    remote code. *)
Theorem cleanup_calls_only_release :
  only is_cleanup_call (cleanup P).
Proof. unfold cleanup. only_steps. Qed.

(** *** [cleanup], call by call *)

(** [cleanup] is its guarded block followed by the two close calls, the
    second only when the first returns. *)
Lemma cleanup_flat (s : St W) :
  cleanup P s =
    match _close_process P (obj s) (snd (finalize_and_unload P s)) with
    | (Raise e, w2) =>
        mkOut (Raise e) (mkSt (obj s) w2)
              (fst (finalize_and_unload P s) ++ [EvCloseProcess])
    | (Return _, w2) =>
        match _close_cache P (obj s) w2 with
        | (r, w3) =>
            mkOut (match r with
                   | Return _ => Return PyNone
                   | Raise e => Raise e
                   end)
                  (mkSt (obj s) w3)
                  (fst (finalize_and_unload P s)
                   ++ [EvCloseProcess; EvCloseCache])
        end
    end.
Proof.
  destruct s as [o w]. unfold cleanup, finalize_and_unload, diagnostic.
  unfold bind, try_except, hasattr, getattr, method, extern, print, ret,
    raise; simpl.
  destruct (_remote_dll o) as [dll |] eqn:Hdll; simpl.
  - destruct (_execute_remote P "Py_Finalize" [] o w) as [[v | e] w1]; simpl.
    + rewrite Hdll; simpl.
      destruct (_unload_dll P dll o w1) as [[v' | e'] w2]; simpl.
      * destruct (_close_process P o w2) as [[? | ?] ?]; simpl;
          [destruct (_close_cache P o _) as [[? | ?] ?] |]; reflexivity.
      * destruct (_debug o) as [dbg |] eqn:Hd; simpl;
          [rewrite ?Hd; simpl; destruct (truthy dbg); simpl |].
        all: destruct (_close_process P o w2) as [[? | ?] ?]; simpl;
          [destruct (_close_cache P o _) as [[? | ?] ?] |]; reflexivity.
    + destruct (_debug o) as [dbg |] eqn:Hd; simpl;
        [rewrite ?Hd; simpl; destruct (truthy dbg); simpl |].
      all: destruct (_close_process P o w1) as [[? | ?] ?]; simpl;
        [destruct (_close_cache P o _) as [[? | ?] ?] |]; reflexivity.
  - destruct (_close_process P o w) as [[? | ?] ?]; simpl;
      [destruct (_close_cache P o _) as [[? | ?] ?] |]; reflexivity.
Qed.

(** The guarded block makes no close call. *)
Lemma finalize_and_unload_no_close (s : St W) :
  forallb (fun ev => negb (is_close_process ev || is_close_cache ev))
          (fst (finalize_and_unload P s)) = true.
Proof.
  unfold finalize_and_unload, diagnostic.
  destruct (_remote_dll (obj s)); [| reflexivity].
  destruct (_execute_remote P _ _ _ _) as [[? | ?] ?].
  - destruct (_unload_dll P _ _ _) as [[? | ?] ?]; [reflexivity |].
    destruct (_debug (obj s)) as [dbg |]; [destruct (truthy dbg) |];
      reflexivity.
  - destruct (_debug (obj s)) as [dbg |]; [destruct (truthy dbg) |];
      reflexivity.
Qed.



(** Within one [cleanup] the handle is closed after everything else that
    touches the target: the trace is the guarded block, then
    [_close_process], then at most [_close_cache].  [_close_cache] is
    missing exactly when [_close_process] raised, and then that exception
    is the one [cleanup] raises. *)
Theorem cleanup_closes_last (s : St W) :
  exists (t tail : list Event),
    trace (cleanup P s) = t ++ EvCloseProcess :: tail
    /\ forallb (fun ev => negb (is_close_process ev || is_close_cache ev)) t
       = true
    /\ ((tail = []
         /\ exists e w, res (cleanup P s) = Raise e
                        /\ fst (_close_process P (obj s) w) = Raise e)
        \/ (tail = [EvCloseCache]
            /\ exists v w, fst (_close_process P (obj s) w) = Return v)).
Proof.
  rewrite cleanup_flat.
  exists (fst (finalize_and_unload P s)).
  destruct (_close_process P (obj s) (snd (finalize_and_unload P s)))
    as [[v | e] w2] eqn:Hclose.
  - destruct (_close_cache P (obj s) w2) as [r w3]. exists [EvCloseCache].
    split; [reflexivity |]. split; [apply finalize_and_unload_no_close |].
    right. split; [reflexivity |].
    exists v, (snd (finalize_and_unload P s)). rewrite Hclose. reflexivity.
  - exists []. split; [reflexivity |].
    split; [apply finalize_and_unload_no_close |].
    left. split; [reflexivity |].
    exists e, (snd (finalize_and_unload P s)). rewrite Hclose.
    split; reflexivity.
Qed.

(** Without the [_remote_dll] attribute, [cleanup] touches nothing in
    the target: it makes the two close calls and no remote call, no
    unload and no print. *)
Theorem cleanup_without_module (s : St W) :
  _remote_dll (obj s) = None ->
  (trace (cleanup P s) = [EvCloseProcess]
   \/ trace (cleanup P s) = [EvCloseProcess; EvCloseCache])
  /\ world (st (cleanup P s))
     = match _close_process P (obj s) (world s) with
       | (Raise _, w2) => w2
       | (Return _, w2) => snd (_close_cache P (obj s) w2)
       end.
Proof.
  intros Hdll. rewrite cleanup_flat. unfold finalize_and_unload.
  rewrite Hdll. simpl.
  destruct (_close_process P (obj s) (world s)) as [[v | e] w2].
  - destruct (_close_cache P (obj s) w2) as [r w3]. simpl.
    split; [right |]; reflexivity.
  - simpl. split; [left |]; reflexivity.
Qed.

(** When the remote finalize fails, [cleanup] skips the unload: the
    library stays loaded.  The failure is printed as "Cleanup error: ..."
    when [_debug] is set and true and dropped otherwise, and the close
    calls follow in the world that the failed call left. *)
Theorem cleanup_finalize_failure_skips_unload (s : St W) (dll : pyval)
    (cause : exc) (w1 : W) :
  _remote_dll (obj s) = Some dll ->
  _execute_remote P "Py_Finalize" [] (obj s) (world s) = (Raise cause, w1) ->
  forallb (fun ev => negb (is_unload ev)) (trace (cleanup P s)) = true
  /\ exists tail,
       trace (cleanup P s)
       = EvExecuteRemote "Py_Finalize" [] :: diagnostic (obj s) cause
         ++ EvCloseProcess :: tail
       /\ (tail = [] \/ tail = [EvCloseCache])
       /\ res (cleanup P s)
          = match _close_process P (obj s) w1 with
            | (Raise e, _) => Raise e
            | (Return _, w2) =>
                match fst (_close_cache P (obj s) w2) with
                | Return _ => Return PyNone
                | Raise e => Raise e
                end
            end.
Proof.
  intros Hdll Hfin. rewrite cleanup_flat. unfold finalize_and_unload.
  rewrite Hdll, Hfin. simpl.
  assert (Hdiag : forallb (fun ev => negb (is_unload ev))
                          (diagnostic (obj s) cause) = true).
  { unfold diagnostic. destruct (_debug (obj s)) as [dbg |];
      [destruct (truthy dbg) |]; reflexivity. }
  destruct (_close_process P (obj s) w1) as [[v | e] w2].
  - destruct (_close_cache P (obj s) w2) as [r w3]. simpl. split.
    + rewrite forallb_app, Hdiag. reflexivity.
    + exists [EvCloseCache]. split; [reflexivity |]. split; [right |];
        reflexivity.
  - simpl. split.
    + rewrite forallb_app, Hdiag. reflexivity.
    + exists []. split; [reflexivity |]. split; [left |]; reflexivity.
Qed.

(** [cleanup] prints at most once, and only a swallowed failure: a
    printed line is "Cleanup error: " followed by the message of an
    exception that the remote finalize or the unload raised, and
    [_debug] is then set and true. *)
Theorem cleanup_prints_only_swallowed_failure (s : St W) (text : string) :
  In (EvPrint text) (trace (cleanup P s)) ->
  length (List.filter is_print (trace (cleanup P s))) = 1
  /\ (exists dbg, _debug (obj s) = Some dbg /\ truthy dbg = true)
  /\ exists dll cause w,
       _remote_dll (obj s) = Some dll
       /\ text = "Cleanup error: " +:+ exc_msg cause
       /\ (fst (_execute_remote P "Py_Finalize" [] (obj s) w) = Raise cause
           \/ fst (_unload_dll P dll (obj s) w) = Raise cause).
Proof.
  assert (Hshape : exists t tail,
             trace (cleanup P s) = t ++ tail
             /\ t = fst (finalize_and_unload P s)
             /\ (tail = [EvCloseProcess]
                 \/ tail = [EvCloseProcess; EvCloseCache])).
  { rewrite cleanup_flat.
    destruct (_close_process P (obj s) _) as [[v | e] w2].
    - destruct (_close_cache P (obj s) w2) as [r w3]. simpl. eauto 6.
    - simpl. eauto 6. }
  destruct Hshape as (t & tail & -> & -> & Htail).
  intros Hin. apply in_app_or in Hin.
  assert (Htailp : List.filter is_print tail = []
                   /\ ~ In (EvPrint text) tail).
  { destruct Htail as [-> | ->]; split; try reflexivity; simpl;
      intros H; repeat (destruct H as [H | H]; try discriminate H);
      exact H. }
  destruct Htailp as [Hfil Hnot].
  destruct Hin as [Hin | Hin]; [| contradiction].
  rewrite List.filter_app, Hfil, app_nil_r.
  revert Hin. unfold finalize_and_unload, diagnostic.
  destruct (_remote_dll (obj s)) as [dll |] eqn:Hdll; [| intros []].
  destruct (_execute_remote P "Py_Finalize" [] (obj s) (world s))
    as [[v | e] w1] eqn:Hfin.
  - destruct (_unload_dll P dll (obj s) w1) as [[v' | e'] w2] eqn:Hun; simpl.
    + intros [H | [H | []]]; discriminate H.
    + destruct (_debug (obj s)) as [dbg |] eqn:Hdbg;
        [destruct (truthy dbg) eqn:Htr |]; simpl.
      * intros [H | [H | [H | []]]]; try discriminate H.
        injection H as <-. split; [reflexivity |]. split; [eauto |].
        exists dll, e', w1. split; [reflexivity |]. split; [reflexivity |].
        right. rewrite Hun. reflexivity.
      * intros [H | [H | []]]; discriminate H.
      * intros [H | [H | []]]; discriminate H.
  - destruct (_debug (obj s)) as [dbg |] eqn:Hdbg;
      [destruct (truthy dbg) eqn:Htr |]; simpl.
    + intros [H | [H | []]]; try discriminate H.
      injection H as <-. split; [reflexivity |]. split; [eauto |].
      exists dll, e, (world s). split; [reflexivity |].
      split; [reflexivity |]. left. rewrite Hfin. reflexivity.
    + intros [H | []]; discriminate H.
    + intros [H | []]; discriminate H.
Qed.

(** *** Construction, call by call *)

Lemma bind_trace_prefix {A B} (m : M W A) (k : A -> M W B) (s : St W) :
  exists t, trace (bind m k s) = trace (m s) ++ t.
Proof.
  unfold bind. destruct (m s) as [[a | e] s1 t1]; simpl.
  - destruct (k a s1) as [r s2 t2]. simpl. eauto.
  - exists []. rewrite app_nil_r. reflexivity.
Qed.

Lemma try_except_trace_prefix {A} (m : M W A) (h : exc -> M W A)
    (s : St W) :
  exists t, trace (try_except m h s) = trace (m s) ++ t.
Proof.
  unfold try_except. destruct (m s) as [[a | e] s1 t1]; simpl.
  - exists []. rewrite app_nil_r. reflexivity.
  - destruct (h e s1) as [r s2 t2]. simpl. eauto.
Qed.

Lemma bind_getattr {A B} (name : string) (proj : RemotePython -> option A)
    (k : A -> M W B) (s : St W) (v : A) :
  proj (obj s) = Some v -> bind (getattr name proj) k s = k v s.
Proof.
  intros Hv. unfold bind, getattr, ret. rewrite Hv.
  destruct (k v s) as [r s2 t2]. reflexivity.
Qed.

Lemma filter_nil_of_forallb (p q : Event -> bool) (l : list Event) :
  forallb p l = true ->
  (forall ev, p ev = true -> q ev = false) ->
  List.filter q l = [].
Proof.
  intros Hp Hpq. induction l as [| ev l IH]; simpl in *; [reflexivity |].
  apply andb_prop in Hp. destruct Hp as [Hev Hl].
  rewrite (Hpq ev Hev). apply IH, Hl.
Qed.

Ltac construction_steps :=
  repeat first
    [ apply only_bind; [| intros ?]
    | apply only_try_except; [| intros ?]
    | apply only_ret
    | apply only_raise
    | apply only_getattr
    | apply only_setattr
    | apply only_hasattr
    | apply only_print; reflexivity
    | apply only_method; reflexivity
    | apply only_extern; simpl; rewrite ?Z.eqb_refl; reflexivity
    | match goal with
      | |- only _ (if ?b then _ else _) => destruct b
      end ].

Lemma inject_and_initialize_only :
  only (fun ev => is_injection_step ev || is_cleanup_call ev)
       (_inject_and_initialize P).
Proof.
  unfold _inject_and_initialize.
  apply only_try_except; [construction_steps | intros e].
  apply only_bind; [| intros ?; apply only_raise].
  apply only_weaken with (p := is_cleanup_call);
    [| apply cleanup_calls_only_release].
  intros ev ->. apply orb_true_r.
Qed.

(** The trace of [_inject_and_initialize]: the steps of the [try] block,
    followed by one [cleanup] exactly when it raises. *)
Lemma inject_and_initialize_shape (s : St W) :
  let out := _inject_and_initialize P s in
  exists t0,
    forallb is_injection_step t0 = true
    /\ ((trace out = t0 /\ exists v, res out = Return v)
        \/ (exists s1 e, trace out = t0 ++ trace (cleanup P s1)
                         /\ res out = Raise e)).
Proof.
  unfold _inject_and_initialize.
  match goal with
  | |- context [try_except ?m ?h] => set (body := m)
  end.
  assert (Hbody : only is_injection_step body)
    by (subst body; construction_steps).
  specialize (Hbody s). unfold try_except. simpl.
  destruct (body s) as [[v | cause] s1 t1]; simpl in *.
  - exists t1. split; [exact Hbody |]. left. eauto.
  - exists t1. split; [exact Hbody |]. right. unfold bind, raise.
    destruct (cleanup P s1) as [[v | e'] s2 t2] eqn:Hcl; simpl.
    + exists s1, (Exc RemotePythonError
                      ("Injection/initialization failed: " +:+ exc_msg cause)).
      rewrite Hcl. simpl. rewrite app_nil_r. split; reflexivity.
    + exists s1, e'. rewrite Hcl. split; reflexivity.
Qed.

(** With the library path set, the injection is the first call. *)
Lemma inject_and_initialize_head (s : St W) (d : pyval) :
  _dll_path (obj s) = Some d ->
  exists t, trace (_inject_and_initialize P s) = EvInjectDll d :: t.
Proof.
  intros Hd. unfold _inject_and_initialize.
  match goal with
  | |- context [try_except ?m ?h] =>
      destruct (try_except_trace_prefix m h s) as [t1 ->]
  end.
  rewrite (bind_getattr _ _ _ _ d Hd).
  match goal with
  | |- context [trace (bind ?m ?k s)] =>
      destruct (bind_trace_prefix m k s) as [t2 ->]
  end.
  rewrite method_trace. simpl. eauto.
Qed.

(** The part of [__init__] before the injection: the preparation calls,
    [OpenProcess] first and only once; then either the construction has
    failed without any cleanup, or [_inject_and_initialize] runs with the
    library path set and decides the outcome. *)
Lemma init_shape (pid : Z) (python_dll_path shelf_name : pyval)
    (s : St W) :
  let out := __init__ P pid python_dll_path shelf_name s in
  exists tpre,
    forallb (is_preparation pid shelf_name) tpre = true
    /\ head tpre = Some (EvOpenProcess PROCESS_ALL_ACCESS false pid)
    /\ List.filter is_open_process tpre
       = [EvOpenProcess PROCESS_ALL_ACCESS false pid]
    /\ ((trace out = tpre
         /\ exists e, res out = Raise e
            /\ (exc_cls e = RemotePythonError
                \/ (exists o w,
                       fst (_get_default_python_dll P o w) = Raise e)
                \/ (exists o w,
                       fst (_initialize_cache P shelf_name o w) = Raise e)))
        \/ (exists s1 d,
               _dll_path (obj s1) = Some d
               /\ trace out = tpre ++ trace (_inject_and_initialize P s1)
               /\ res out
                  = match res (_inject_and_initialize P s1) with
                    | Return _ => Return PyNone
                    | Raise e => Raise e
                    end)).
Proof.
  intros out. subst out. destruct s as [o w].
  unfold __init__, _initialize_process.
  unfold bind, try_except, method, extern, setattr, ret, raise. simpl.
  destruct (OpenProcess P _ _ _ _) as [[h | e] w1]; simpl.
  2:{ exists [EvOpenProcess PROCESS_ALL_ACCESS false pid].
      split; [simpl; rewrite !Z.eqb_refl; reflexivity |].
      split; [reflexivity |]. split; [reflexivity |].
      left. split; [reflexivity |]. eexists. split; [reflexivity |].
      left. reflexivity. }
  destruct (GetModuleFileNameEx P _ _ _) as [[exe | e] w2]; simpl.
  2:{ exists [EvOpenProcess PROCESS_ALL_ACCESS false pid;
              EvGetModuleFileNameEx h 0].
      split; [simpl; rewrite !Z.eqb_refl; reflexivity |].
      split; [reflexivity |]. split; [reflexivity |].
      left. split; [reflexivity |]. eexists. split; [reflexivity |].
      left. reflexivity. }
  destruct (truthy python_dll_path) eqn:Hpath; simpl.
  - destruct (_initialize_cache P _ _ _) as [[cache | e] w3] eqn:Hc; simpl.
  2:{ exists [EvOpenProcess PROCESS_ALL_ACCESS false pid;
              EvGetModuleFileNameEx h 0; EvInitializeCache shelf_name].
      split; [simpl; rewrite !Z.eqb_refl; reflexivity |].
      split; [reflexivity |]. split; [reflexivity |].
      left. split; [reflexivity |]. eexists. split; [reflexivity |].
      right. right. eexists _, w2. rewrite Hc. reflexivity. }
    pose proof (inject_and_initialize_cases P
      (mkSt (mkRemotePython (Some (mkProcessInfo pid h exe))
                            (Some python_dll_path) (Some cache)
                            (_remote_dll o) (_debug o)) w3)) as Hcases.
    cbv zeta in Hcases.
    destruct (_inject_and_initialize P _) as [[ok | e] s4 t4] eqn:Hinj;
      simpl in *.
    + subst ok. simpl.
      exists [EvOpenProcess PROCESS_ALL_ACCESS false pid;
              EvGetModuleFileNameEx h 0; EvInitializeCache shelf_name].
      split; [simpl; rewrite !Z.eqb_refl; reflexivity |].
      split; [reflexivity |]. split; [reflexivity |].
      right.
      match type of Hinj with
      | _inject_and_initialize P ?s0 = _ => exists s0, python_dll_path
      end.
      split; [reflexivity |].
      rewrite Hinj. simpl. rewrite app_nil_r. split; reflexivity.
    + exists [EvOpenProcess PROCESS_ALL_ACCESS false pid;
              EvGetModuleFileNameEx h 0; EvInitializeCache shelf_name].
      split; [simpl; rewrite !Z.eqb_refl; reflexivity |].
      split; [reflexivity |]. split; [reflexivity |].
      right.
      match type of Hinj with
      | _inject_and_initialize P ?s0 = _ => exists s0, python_dll_path
      end.
      split; [reflexivity |].
      rewrite Hinj. simpl. split; reflexivity.
  - destruct (_get_default_python_dll P _ _) as [[dflt | e] w2'] eqn:Hd;
      simpl.
  2:{ exists [EvOpenProcess PROCESS_ALL_ACCESS false pid;
              EvGetModuleFileNameEx h 0; EvGetDefaultPythonDll].
      split; [simpl; rewrite !Z.eqb_refl; reflexivity |].
      split; [reflexivity |]. split; [reflexivity |].
      left. split; [reflexivity |]. eexists. split; [reflexivity |].
      right. left. eexists _, w2. rewrite Hd. reflexivity. }
    destruct (_initialize_cache P _ _ _) as [[cache | e] w3] eqn:Hc; simpl.
  2:{ exists [EvOpenProcess PROCESS_ALL_ACCESS false pid;
              EvGetModuleFileNameEx h 0; EvGetDefaultPythonDll;
              EvInitializeCache shelf_name].
      split; [simpl; rewrite !Z.eqb_refl; reflexivity |].
      split; [reflexivity |]. split; [reflexivity |].
      left. split; [reflexivity |]. eexists. split; [reflexivity |].
      right. right. eexists _, w2'. rewrite Hc. reflexivity. }
    pose proof (inject_and_initialize_cases P
      (mkSt (mkRemotePython (Some (mkProcessInfo pid h exe))
                            (Some dflt) (Some cache)
                            (_remote_dll o) (_debug o)) w3)) as Hcases.
    cbv zeta in Hcases.
    destruct (_inject_and_initialize P _) as [[ok | e] s4 t4] eqn:Hinj;
      simpl in *.
    + subst ok. simpl.
      exists [EvOpenProcess PROCESS_ALL_ACCESS false pid;
              EvGetModuleFileNameEx h 0; EvGetDefaultPythonDll;
              EvInitializeCache shelf_name].
      split; [simpl; rewrite !Z.eqb_refl; reflexivity |].
      split; [reflexivity |]. split; [reflexivity |].
      right.
      match type of Hinj with
      | _inject_and_initialize P ?s0 = _ => exists s0, dflt
      end.
      split; [reflexivity |].
      rewrite Hinj. simpl. rewrite app_nil_r. split; reflexivity.
    + exists [EvOpenProcess PROCESS_ALL_ACCESS false pid;
              EvGetModuleFileNameEx h 0; EvGetDefaultPythonDll;
              EvInitializeCache shelf_name].
      split; [simpl; rewrite !Z.eqb_refl; reflexivity |].
      split; [reflexivity |]. split; [reflexivity |].
      right.
      match type of Hinj with
      | _inject_and_initialize P ?s0 = _ => exists s0, dflt
      end.
      split; [reflexivity |].
      rewrite Hinj. simpl. split; reflexivity.
Qed.

(** *** What a construction calls *)

(** Whatever its outcome, a construction makes no call outside three
    groups: the preparation ([OpenProcess] with [PROCESS_ALL_ACCESS], no
    handle inheritance and the caller's process id, the module name, the
    default library, the cache), the injection steps, and the calls of
    [cleanup].  In particular the only call of [_execute_remote] it
    makes is the one for [Py_Finalize], without arguments, and the only
    call of [_get_proc_address] is the one for [Py_Finalize]; what the
    injection steps do inside the target is theirs, not a call of the
    constructor. *)
Theorem init_calls_only_its_steps (pid : Z)
    (python_dll_path shelf_name : pyval) :
  only (fun ev => is_preparation pid shelf_name ev
                  || is_injection_step ev || is_cleanup_call ev)
       (__init__ P pid python_dll_path shelf_name)
  /\ (forall s name args,
         In (EvExecuteRemote name args)
            (trace (__init__ P pid python_dll_path shelf_name s)) ->
         name = "Py_Finalize" /\ args = [])
  /\ (forall s name,
         In (EvGetProcAddress name)
            (trace (__init__ P pid python_dll_path shelf_name s)) ->
         name = "Py_Finalize").
Proof.
  assert (Honly : only (fun ev => is_preparation pid shelf_name ev
                                  || is_injection_step ev
                                  || is_cleanup_call ev)
                       (__init__ P pid python_dll_path shelf_name)).
  { unfold __init__, _initialize_process. construction_steps. }
  split; [exact Honly |]. split.
  - intros s name args Hin. specialize (Honly s).
    rewrite forallb_forall in Honly. specialize (Honly _ Hin).
    unfold is_cleanup_call in Honly. simpl in Honly.
    destruct args as [| a args]; [| discriminate Honly].
    destruct (String.eqb name "Py_Finalize") eqn:Hname;
      [| discriminate Honly].
    apply String.eqb_eq in Hname. split; [exact Hname | reflexivity].
  - intros s name Hin. specialize (Honly s).
    rewrite forallb_forall in Honly. specialize (Honly _ Hin).
    unfold is_cleanup_call in Honly. simpl in Honly.
    destruct (String.eqb name "Py_Finalize") eqn:Hname;
      [| discriminate Honly].
    apply String.eqb_eq in Hname. exact Hname.
Qed.

(** Every construction starts with [OpenProcess] and opens exactly
    once, whatever happens afterwards. *)
Theorem init_opens_once_first (pid : Z)
    (python_dll_path shelf_name : pyval) (s : St W) :
  let out := __init__ P pid python_dll_path shelf_name s in
  head (trace out) = Some (EvOpenProcess PROCESS_ALL_ACCESS false pid)
  /\ List.filter is_open_process (trace out)
     = [EvOpenProcess PROCESS_ALL_ACCESS false pid].
Proof.
  intros out. subst out.
  destruct (init_shape pid python_dll_path shelf_name s)
    as (tpre & _ & Hhead & Hopen & [[-> _] | (s1 & d & _ & -> & _)]).
  - split; [exact Hhead | exact Hopen].
  - split.
    + destruct tpre as [| ev tpre]; [discriminate Hhead | exact Hhead].
    + rewrite List.filter_app, Hopen.
      rewrite (filter_nil_of_forallb _ is_open_process _
                 (inject_and_initialize_only s1)); [reflexivity |].
      intros [] Hev; try reflexivity; discriminate Hev.
Qed.

(** A construction calls [_close_process] only when it fails after
    having attempted the injection, and then exactly once. *)
Theorem init_closes_only_after_injection (pid : Z)
    (python_dll_path shelf_name : pyval) (s : St W) :
  let out := __init__ P pid python_dll_path shelf_name s in
  In EvCloseProcess (trace out) ->
  (exists d, In (EvInjectDll d) (trace out))
  /\ (exists e, res out = Raise e)
  /\ List.filter is_close_process (trace out) = [EvCloseProcess].
Proof.
  intros out Hin. subst out.
  destruct (init_shape pid python_dll_path shelf_name s)
    as (tpre & Hpre & _ & _ & [[Ht _] | (s1 & d & Hd & Ht & Hres)]);
    rewrite Ht in *.
  - exfalso. rewrite forallb_forall in Hpre. specialize (Hpre _ Hin).
    discriminate Hpre.
  - assert (Hno : List.filter is_close_process tpre = []).
    { apply (filter_nil_of_forallb _ _ _ Hpre).
      intros [] Hev; try reflexivity; discriminate Hev. }
    apply in_app_or in Hin. destruct Hin as [Hin | Hin].
    { exfalso. rewrite forallb_forall in Hpre. specialize (Hpre _ Hin).
      discriminate Hpre. }
    destruct (inject_and_initialize_head s1 d Hd) as [t Hhead].
    split.
    { exists d. apply in_or_app. right. rewrite Hhead. left. reflexivity. }
    destruct (inject_and_initialize_shape s1)
      as (t0 & Ht0 & [[Htr _] | (s2 & e & Htr & He)]).
    + exfalso. rewrite Htr in Hin. rewrite forallb_forall in Ht0.
      specialize (Ht0 _ Hin). discriminate Ht0.
    + split.
      * exists e. rewrite Hres, He. reflexivity.
      * rewrite List.filter_app, Hno, Htr, List.filter_app.
        rewrite (filter_nil_of_forallb _ is_close_process _ Ht0).
        -- apply cleanup_once.
        -- intros [] Hev; try reflexivity; discriminate Hev.
Qed.

(** A construction that fails before the injection is attempted runs no
    cleanup: it has made preparation calls only, so the handle that
    [OpenProcess] may have returned is never closed, and the exception is
    either the "Failed to initialize process" wrapper or the unwrapped
    exception of [_get_default_python_dll] or [_initialize_cache]. *)
Theorem init_failure_before_injection_skips_cleanup (pid : Z)
    (python_dll_path shelf_name : pyval) (s : St W) :
  let out := __init__ P pid python_dll_path shelf_name s in
  (forall d, ~ In (EvInjectDll d) (trace out)) ->
  forallb (is_preparation pid shelf_name) (trace out) = true
  /\ ~ In EvCloseProcess (trace out)
  /\ exists e,
       res out = Raise e
       /\ ((exc_cls e = RemotePythonError
            /\ exists cause,
                 exc_msg e
                 = "Failed to initialize process: " +:+ exc_msg cause)
           \/ (exists o w, fst (_get_default_python_dll P o w) = Raise e)
           \/ (exists o w,
                  fst (_initialize_cache P shelf_name o w) = Raise e)).
Proof.
  intros out Hno. subst out.
  assert (Hprep : forallb (is_preparation pid shelf_name)
            (trace (__init__ P pid python_dll_path shelf_name s)) = true).
  { destruct (init_shape pid python_dll_path shelf_name s)
      as (tpre & Hpre & _ & _ & [[Ht _] | (s1 & d & Hd & Ht & _)]);
      rewrite Ht in *; [exact Hpre |].
    exfalso. destruct (inject_and_initialize_head s1 d Hd) as [t Hhead].
    apply (Hno d). apply in_or_app. right. rewrite Hhead. left.
    reflexivity. }
  split; [exact Hprep |]. split.
  { intros Hin. rewrite forallb_forall in Hprep.
    specialize (Hprep _ Hin). discriminate Hprep. }
  clear Hprep. revert Hno. destruct s as [o w].
  unfold __init__, _initialize_process.
  unfold bind, try_except, method, extern, setattr, ret, raise. simpl.
  destruct (OpenProcess P _ _ _ _) as [[h | e] w1]; simpl.
  2:{ intros _. eexists. split; [reflexivity |]. left.
      split; [reflexivity |]. eauto. }
  destruct (GetModuleFileNameEx P _ _ _) as [[exe | e] w2]; simpl.
  2:{ intros _. eexists. split; [reflexivity |]. left.
      split; [reflexivity |]. eauto. }
  destruct (truthy python_dll_path); simpl.
  - destruct (_initialize_cache P _ _ _) as [[cache | e] w3] eqn:Hc; simpl.
    2:{ intros _. exists e. split; [reflexivity |]. right. right.
        eexists _, w2. rewrite Hc. reflexivity. }
    intros Hno. exfalso.
    match goal with
    | H : context [_inject_and_initialize P ?s0] |- _ =>
        destruct (inject_and_initialize_head s0 python_dll_path eq_refl)
          as [t Hhead];
        destruct (_inject_and_initialize P s0) as [r s4 t4]
    end.
    simpl in *. subst t4. apply (Hno python_dll_path).
    destruct r as [ok | e]; [destruct (negb (truthy ok)) |]; simpl;
      auto 10.
  - destruct (_get_default_python_dll P _ _) as [[dflt | e] w2'] eqn:Hd;
      simpl.
    2:{ intros _. exists e. split; [reflexivity |]. right. left.
        eexists _, w2. rewrite Hd. reflexivity. }
    destruct (_initialize_cache P _ _ _) as [[cache | e] w3] eqn:Hc; simpl.
    2:{ intros _. exists e. split; [reflexivity |]. right. right.
        eexists _, w2'. rewrite Hc. reflexivity. }
    intros Hno. exfalso.
    match goal with
    | H : context [_inject_and_initialize P ?s0] |- _ =>
        destruct (inject_and_initialize_head s0 dflt eq_refl)
          as [t Hhead];
        destruct (_inject_and_initialize P s0) as [r s4 t4]
    end.
    simpl in *. subst t4. apply (Hno dflt).
    destruct r as [ok | e]; [destruct (negb (truthy ok)) |]; simpl;
      auto 10.
Qed.

(** Where the exception of a failed construction comes from. *)
Lemma init_raise_cases (pid : Z)
    (python_dll_path shelf_name : pyval) (s : St W) (e : exc) :
  res (__init__ P pid python_dll_path shelf_name s) = Raise e ->
  exc_cls e = RemotePythonError
  \/ (exists o w, fst (_get_default_python_dll P o w) = Raise e)
  \/ (exists o w, fst (_initialize_cache P shelf_name o w) = Raise e)
  \/ (exists o w, fst (_close_process P o w) = Raise e)
  \/ (exists o w, fst (_close_cache P o w) = Raise e).
Proof.
  intros Hres.
  destruct (init_shape pid python_dll_path shelf_name s)
    as (tpre & _ & _ & _ & [[_ (e' & He & Hcls)] | (s1 & d & _ & _ & Hr)]).
  - rewrite Hres in He. injection He as <-.
    destruct Hcls as [H | [H | H]]; auto.
  - rewrite Hres in Hr.
    pose proof (inject_and_initialize_cases P s1) as Hcases.
    cbv zeta in Hcases.
    destruct (res (_inject_and_initialize P s1)) as [ok | e1];
      [discriminate Hr |].
    injection Hr as ->.
    destruct Hcases as (t0 & s2 & cause & _ & [Hraise | [_ ->]]).
    + destruct (cleanup_summary P s2) as (_ & _ & Hsum & _).
      rewrite Hraise in Hsum. destruct Hsum as [w1 [Hw | Hw]].
      * right. right. right. left. eauto.
      * right. right. right. right. eauto.
    + left. reflexivity.
Qed.

(** The [InjectionError] and the two [InitializationError]s that the file
    itself creates (lines 59, 79, 83) never reach the caller of the
    constructor: line 59 is not reached, because
    [_inject_and_initialize] never returns a false value, and the other
    two are raised inside the [try] and come out wrapped in a plain
    [RemotePythonError] or replaced by a failure of a close call.  So an
    exception of one of these two classes that does leave the
    constructor was raised by [_get_default_python_dll],
    [_initialize_cache], [_close_process] or [_close_cache]. *)
Theorem init_own_errors_never_escape (pid : Z)
    (python_dll_path shelf_name : pyval) (s : St W) (e : exc) :
  res (__init__ P pid python_dll_path shelf_name s) = Raise e ->
  exc_cls e = InjectionError \/ exc_cls e = InitializationError ->
  (exists o w, fst (_get_default_python_dll P o w) = Raise e)
  \/ (exists o w, fst (_initialize_cache P shelf_name o w) = Raise e)
  \/ (exists o w, fst (_close_process P o w) = Raise e)
  \/ (exists o w, fst (_close_cache P o w) = Raise e).
Proof.
  intros Hres Hcls.
  destruct (init_raise_cases pid python_dll_path shelf_name s e Hres)
    as [Hbase | Hfrom]; [| exact Hfrom].
  rewrite Hbase in Hcls. destruct Hcls as [H | H]; discriminate H.
Qed.

(** *** Successful construction *)

Ltac failed_after_cleanup :=
  destruct (cleanup P _) as [[? | ?] ? ?]; simpl;
  intros H; discriminate H.


(** In a construction that returns, each of the calls returned and the
    two checks answered a true value.  The result is [None]; the calls
    were made in the order of the source, each in the world its
    predecessor left and on the object as assigned so far, and no
    cleanup call was made; [_process] holds the caller's process id with
    the handle [OpenProcess] returned and the name
    [GetModuleFileNameEx] returned, [_dll_path] the caller's path when it
    is truthy and the value [_get_default_python_dll] returned otherwise,
    [_proc_cache] the value [_initialize_cache] returned and
    [_remote_dll] the value [_inject_dll] returned; the world is the one
    the last call left. *)
Theorem init_success_calls_and_attributes (pid : Z)
    (python_dll_path shelf_name : pyval) (s : St W) (v : pyval) :
  let out := __init__ P pid python_dll_path shelf_name s in
  res out = Return v ->
  v = PyNone
  /\ exists h exe dll_path cache dll injected x initialized address
            w1 w2 w3 w4 w5 w6 w7 w8 w9,
       let o1 := with_process (obj s) (mkProcessInfo pid h exe) in
       let o2 := with_dll_path o1 dll_path in
       let o3 := with_proc_cache o2 cache in
       let o4 := with_remote_dll o3 dll in
       OpenProcess P PROCESS_ALL_ACCESS false pid (world s) = (Return h, w1)
       /\ GetModuleFileNameEx P h 0 w1 = (Return exe, w2)
       /\ (if truthy python_dll_path
           then dll_path = python_dll_path /\ w3 = w2
           else _get_default_python_dll P o1 w2 = (Return dll_path, w3))
       /\ _initialize_cache P shelf_name o2 w3 = (Return cache, w4)
       /\ _inject_dll P dll_path o3 w4 = (Return dll, w5)
       /\ is_python_injected P o4 w5 = (Return injected, w6)
       /\ truthy injected = true
       /\ _initialize_python P o4 w6 = (Return x, w7)
       /\ is_python_initialized P o4 w7 = (Return initialized, w8)
       /\ truthy initialized = true
       /\ _get_proc_address P "Py_Finalize" o4 w8 = (Return address, w9)
       /\ st out = mkSt o4 w9
       /\ trace out
          = [EvOpenProcess PROCESS_ALL_ACCESS false pid;
             EvGetModuleFileNameEx h 0]
            ++ (if truthy python_dll_path then []
                else [EvGetDefaultPythonDll])
            ++ [EvInitializeCache shelf_name;
                EvInjectDll dll_path;
                EvIsPythonInjected;
                EvInitializePython;
                EvIsPythonInitialized;
                EvGetProcAddress "Py_Finalize"].
Proof.
  intros out. subst out. destruct s as [o w].
  unfold __init__, _initialize_process, _inject_and_initialize.
  unfold bind, try_except, method, extern, getattr, setattr, ret, raise.
  unfold with_process, with_dll_path, with_proc_cache, with_remote_dll.
  simpl.
  destruct (OpenProcess P _ _ _ _) as [[h | e] w1] eqn:H1; simpl;
    [| intros H; discriminate H].
  destruct (GetModuleFileNameEx P _ _ _) as [[exe | e] w2] eqn:H2; simpl;
    [| intros H; discriminate H].
  destruct (truthy python_dll_path) eqn:Hpath; simpl.
  - destruct (_initialize_cache P _ _ _) as [[cache | e] w4] eqn:H4; simpl;
      [| intros H; discriminate H].
    destruct (_inject_dll P _ _ _) as [[dll | e] w5] eqn:H5; simpl;
      [| failed_after_cleanup].
    destruct (is_python_injected P _ _) as [[inj | e] w6] eqn:H6; simpl;
      [| failed_after_cleanup].
    destruct (truthy inj) eqn:Hinj; simpl; [| failed_after_cleanup].
    destruct (_initialize_python P _ _) as [[x | e] w7] eqn:H7; simpl;
      [| failed_after_cleanup].
    destruct (is_python_initialized P _ _) as [[ini | e] w8] eqn:H8; simpl;
      [| failed_after_cleanup].
    destruct (truthy ini) eqn:Hini; simpl; [| failed_after_cleanup].
    destruct (_get_proc_address P _ _ _) as [[a | e] w9] eqn:H9; simpl;
      [| failed_after_cleanup].
    intros H. injection H as <-. split; [reflexivity |].
    exists h, exe, python_dll_path, cache, dll, inj, x, ini, a,
           w1, w2, w2, w4, w5, w6, w7, w8, w9.
    cbv zeta. simpl. repeat split; auto.
  - destruct (_get_default_python_dll P _ _) as [[dflt | e] w3] eqn:H3;
      simpl; [| intros H; discriminate H].
    destruct (_initialize_cache P _ _ _) as [[cache | e] w4] eqn:H4; simpl;
      [| intros H; discriminate H].
    destruct (_inject_dll P _ _ _) as [[dll | e] w5] eqn:H5; simpl;
      [| failed_after_cleanup].
    destruct (is_python_injected P _ _) as [[inj | e] w6] eqn:H6; simpl;
      [| failed_after_cleanup].
    destruct (truthy inj) eqn:Hinj; simpl; [| failed_after_cleanup].
    destruct (_initialize_python P _ _) as [[x | e] w7] eqn:H7; simpl;
      [| failed_after_cleanup].
    destruct (is_python_initialized P _ _) as [[ini | e] w8] eqn:H8; simpl;
      [| failed_after_cleanup].
    destruct (truthy ini) eqn:Hini; simpl; [| failed_after_cleanup].
    destruct (_get_proc_address P _ _ _) as [[a | e] w9] eqn:H9; simpl;
      [| failed_after_cleanup].
    intros H. injection H as <-. split; [reflexivity |].
    exists h, exe, dflt, cache, dll, inj, x, ini, a,
           w1, w2, w3, w4, w5, w6, w7, w8, w9.
    cbv zeta. simpl. repeat split; auto.
Qed.

(** *** Failures inside the constructor *)

(** When the process opens but its module name cannot be read, the
    constructor raises the "Failed to initialize process" wrapper after
    exactly those two calls: the handle that [OpenProcess] returned is
    neither stored in the object nor closed. *)
Theorem init_module_name_failure_drops_handle (pid : Z)
    (python_dll_path shelf_name : pyval) (s : St W)
    (h : pyval) (cause : exc) (w1 w2 : W) :
  OpenProcess P PROCESS_ALL_ACCESS false pid (world s) = (Return h, w1) ->
  GetModuleFileNameEx P h 0 w1 = (Raise cause, w2) ->
  let out := __init__ P pid python_dll_path shelf_name s in
  res out = Raise (Exc RemotePythonError
                       ("Failed to initialize process: " +:+ exc_msg cause))
  /\ trace out = [EvOpenProcess PROCESS_ALL_ACCESS false pid;
                  EvGetModuleFileNameEx h 0]
  /\ st out = mkSt (obj s) w2.
Proof.
  intros Hopen Hname out. subst out.
  unfold __init__, _initialize_process, bind, try_except, extern, ret, raise.
  simpl. rewrite Hopen. simpl. rewrite Hname. simpl.
  repeat split; reflexivity.
Qed.

(** When [_inject_dll] returns a module but [is_python_injected] answers
    false, the module is already recorded in [_remote_dll]; so the
    cleanup that follows runs [Py_Finalize] in the target although
    [_initialize_python] was never called.  The error, when the close
    calls return, is the wrapper around "Python DLL injection failed". *)
Theorem injection_check_failure_finalizes_uninitialized (s : St W)
    (d dll v : pyval) (w1 w2 : W) :
  _dll_path (obj s) = Some d ->
  _inject_dll P d (obj s) (world s) = (Return dll, w1) ->
  is_python_injected P
    (mkRemotePython (_process (obj s)) (_dll_path (obj s))
                    (_proc_cache (obj s)) (Some dll) (_debug (obj s))) w1
    = (Return v, w2) ->
  truthy v = false ->
  let out := _inject_and_initialize P s in
  _remote_dll (obj (st out)) = Some dll
  /\ (exists t,
         trace out = EvInjectDll d :: EvIsPythonInjected
                       :: EvExecuteRemote "Py_Finalize" [] :: t
         /\ forallb is_cleanup_call t = true)
  /\ (res out = Raise (Exc RemotePythonError
         "Injection/initialization failed: Python DLL injection failed")
      \/ exists e w, res out = Raise e
                     /\ (fst (_close_process P (obj (st out)) w) = Raise e
                         \/ fst (_close_cache P (obj (st out)) w) = Raise e)).
Proof.
  intros Hd Hinj Hchk Hv out. subst out. destruct s as [o w].
  simpl in *.
  unfold _inject_and_initialize.
  unfold bind, try_except, method, extern, getattr, setattr, ret, raise.
  simpl. rewrite Hd. simpl. rewrite Hinj. simpl.
  rewrite Hchk. simpl. rewrite Hv. simpl.
  match goal with
  | |- context [cleanup P ?s0] =>
      pose proof (cleanup_first_call P s0) as Hhead;
      pose proof (cleanup_calls_only_release s0) as Honly;
      pose proof (cleanup_once P s0) as [Hobj _];
      pose proof (cleanup_summary P s0) as (_ & _ & Hsum & _);
      destruct (cleanup P s0) as [[r | e] s2 t2]
  end; simpl in *.
  - destruct t2 as [| ev t2]; [discriminate Hhead |].
    injection Hhead as ->. simpl in Honly.
    split; [rewrite Hobj; reflexivity |]. split.
    + exists (t2 ++ []). split; [reflexivity |].
      rewrite app_nil_r. exact Honly.
    + left. reflexivity.
  - destruct t2 as [| ev t2]; [discriminate Hhead |].
    injection Hhead as ->. simpl in Honly.
    split; [rewrite Hobj; reflexivity |]. split.
    + exists t2. split; [reflexivity | exact Honly].
    + right. destruct Hsum as [w' Hw]. exists e, w'.
      rewrite Hobj. split; [reflexivity | exact Hw].
Qed.

(** When [_inject_dll] itself raises on an object without [_remote_dll],
    nothing is run in the target: the cleanup that follows consists of
    the close calls alone, the attributes stay as they were, and the
    error, when the close calls return, wraps the cause. *)
Theorem injection_failure_skips_finalize (s : St W) (d : pyval)
    (cause : exc) (w1 : W) :
  _dll_path (obj s) = Some d ->
  _remote_dll (obj s) = None ->
  _inject_dll P d (obj s) (world s) = (Raise cause, w1) ->
  let out := _inject_and_initialize P s in
  obj (st out) = obj s
  /\ ((trace out = [EvInjectDll d; EvCloseProcess]
       /\ exists e, res out = Raise e
                    /\ fst (_close_process P (obj s) w1) = Raise e)
      \/ (trace out = [EvInjectDll d; EvCloseProcess; EvCloseCache]
          /\ (res out = Raise (Exc RemotePythonError
                 ("Injection/initialization failed: " +:+ exc_msg cause))
              \/ exists e w, res out = Raise e
                             /\ fst (_close_cache P (obj s) w) = Raise e))).
Proof.
  intros Hd Hdll Hinj out. subst out. destruct s as [o w].
  simpl in *.
  unfold _inject_and_initialize.
  unfold bind, try_except, method, extern, getattr, setattr, ret, raise.
  simpl. rewrite Hd. simpl. rewrite Hinj. simpl.
  rewrite cleanup_flat. unfold finalize_and_unload. simpl.
  rewrite Hdll. simpl.
  destruct (_close_process P o w1) as [[v | e] w2] eqn:Hcp; simpl.
  - destruct (_close_cache P o w2) as [[v' | e'] w3] eqn:Hcc; simpl.
    + split; [reflexivity |]. right. split; [reflexivity |].
      left. reflexivity.
    + split; [reflexivity |]. right. split; [reflexivity |].
      right. exists e', w2. rewrite Hcc. split; reflexivity.
  - split; [reflexivity |]. left. split; [reflexivity |].
    exists e. split; reflexivity.
Qed.

(** *** [run], [__exit__] and [set_python_path] *)

(** Whatever its argument, [run] assigns no attribute and makes at most
    one call, the remote [PyRun_SimpleString] with that argument.  A
    value it returns is the one that call returned, in the world that
    call left.  A failure of the call, whatever the class of its
    exception, comes out as a plain [RemotePythonError] that keeps only
    its message; the [TypeError] comes out only for an argument that is
    not a [str], before any call and with the state untouched.
    (Exceptions are those derived from [Exception], the ones
    [except Exception] handles.) *)
Theorem run_outcomes (code : pyval) (s : St W) :
  let out := run P code s in
  let call := _execute_remote P "PyRun_SimpleString" [code]
                              (obj s) (world s) in
  obj (st out) = obj s
  /\ (trace out = []
      \/ trace out = [EvExecuteRemote "PyRun_SimpleString" [code]])
  /\ match res out with
     | Return v =>
         isinstance_str code = true
         /\ call = (Return v, world (st out))
     | Raise e =>
         (isinstance_str code = false
          /\ e = Exc TypeError "Code must be a string"
          /\ trace out = [] /\ st out = s)
         \/ (isinstance_str code = true
             /\ exists cause,
                  call = (Raise cause, world (st out))
                  /\ e = Exc RemotePythonError
                             ("Code execution failed: " +:+ exc_msg cause))
     end.
Proof.
  unfold run. destruct (isinstance_str code); simpl.
  - unfold try_except, method, extern, raise. simpl.
    destruct (_execute_remote P _ _ _ _) as [[v | e] w']; simpl.
    + repeat split; auto.
    + repeat split; auto. right. split; [reflexivity |]. eauto.
  - repeat split; auto.
Qed.

(** [__exit__] never returns a true value: leaving a [with] block
    through an exception never suppresses that exception. *)
Theorem exit_returns_falsy (s : St W) (v : pyval) :
  res (__exit__ P s) = Return v -> truthy v = false.
Proof.
  unfold __exit__. intros Hres.
  pose proof (cleanup_raises_cases P s) as Hcases.
  rewrite Hres in Hcases. subst v. reflexivity.
Qed.

Lemma append_assoc (a b c : string) : (a +:+ b) +:+ c = a +:+ b +:+ c.
Proof.
  induction a as [| ch a IH]; [reflexivity |].
  change (String ch ((a +:+ b) +:+ c) = String ch (a +:+ b +:+ c)).
  rewrite IH. reflexivity.
Qed.

Lemma join_app (sep : string) (xs ys : list string) :
  xs <> [] -> ys <> [] ->
  join sep (xs ++ ys) = join sep xs +:+ sep +:+ join sep ys.
Proof.
  intros Hxs Hys. induction xs as [| x xs IH]; [contradiction |].
  destruct xs as [| x' xs].
  - simpl. destruct ys as [| y ys]; [contradiction | reflexivity].
  - change (join sep ((x :: x' :: xs) ++ ys))
      with (x +:+ sep +:+ join sep ((x' :: xs) ++ ys)).
    rewrite IH by discriminate.
    change (join sep (x :: x' :: xs))
      with (x +:+ sep +:+ join sep (x' :: xs)).
    rewrite !append_assoc. reflexivity.
Qed.

(** The string that [set_python_path] forwards for two non-empty lists
    put end to end is the string for the first, a ";" and the string
    for the second: order is kept, nothing is dropped or deduplicated,
    and no separator is added at either end. *)
Theorem set_python_path_concat (xs ys : list string) (s : St W) :
  xs <> [] -> ys <> [] ->
  exists a b,
    trace (set_python_path P xs s) = [EvExecuteRemote "PySys_SetPath" [PyStr a]]
    /\ trace (set_python_path P ys s)
       = [EvExecuteRemote "PySys_SetPath" [PyStr b]]
    /\ trace (set_python_path P (xs ++ ys) s)
       = [EvExecuteRemote "PySys_SetPath" [PyStr (a +:+ ";" +:+ b)]].
Proof.
  intros Hxs Hys.
  assert (Htrace : forall paths,
             trace (set_python_path P paths s)
             = [EvExecuteRemote "PySys_SetPath"
                  [PyStr (join ";" (map (Path_str P) paths))]]).
  { intros paths. unfold set_python_path, bind, method, extern, ret. simpl.
    destruct (_execute_remote P "PySys_SetPath" _ _ _) as [[v | e] w'];
      reflexivity. }
  exists (join ";" (map (Path_str P) xs)), (join ";" (map (Path_str P) ys)).
  rewrite !Htrace. split; [reflexivity |]. split; [reflexivity |].
  rewrite map_app, join_app; [reflexivity | |].
  - destruct xs; [contradiction | discriminate].
  - destruct ys; [contradiction | discriminate].
Qed.

End Behaviour.

(** ** Executions on the simulated target *)

Section Executions.
Import Sim.

Example construct_succeeds :
  res (construct (sim NoFault) 1234 PyNone PyNone boot) = Return PyNone
  /\ world (ready NoFault) = mkWorld true true true true.
Proof. split; reflexivity. Qed.

Example run_noop_returns_zero :
  res (run (sim NoFault) (PyStr "noop") (ready NoFault)) = Return (PyInt 0).
Proof. reflexivity. Qed.

Example cleanup_releases :
  world (st (cleanup (sim NoFault) (ready NoFault)))
  = mkWorld false false false false.
Proof. reflexivity. Qed.

(** A non-string argument: [run(5)]. *)
Lemma run_rejects_non_string_witness :
  run (sim NoFault) (PyInt 5) (ready NoFault)
  = mkOut (Raise (Exc TypeError "Code must be a string")) (ready NoFault) [].
Proof.
  apply (run_rejects_non_string (sim NoFault) (PyInt 5) (ready NoFault)).
  reflexivity.
Defined.

(** A remote execution that fails on a live session. *)
Lemma run_failure_keeps_session_witness :
  let out := run (sim FailExecute) (PyStr "noop") (ready FailExecute) in
  res out = Raise (Exc RemotePythonError
                       ("Code execution failed: "
                        +:+ exc_msg (OSError "remote thread failed")))
  /\ obj (st out) = obj (ready FailExecute)
  /\ world (st out) = world (ready FailExecute)
  /\ trace out = [EvExecuteRemote "PyRun_SimpleString" [PyStr "noop"]].
Proof.
  apply (run_failure_keeps_session (sim FailExecute) "noop"
           (ready FailExecute) (OSError "remote thread failed")
           (world (ready FailExecute))).
  reflexivity.
Defined.

(** A process id that cannot be opened. *)
Lemma init_open_failure_witness :
  let out := __init__ (sim FailOpen) 1234 PyNone PyNone
                      (mkSt fresh_object boot) in
  res out = Raise (Exc RemotePythonError
                       ("Failed to initialize process: "
                        +:+ exc_msg (OSError "The parameter is incorrect")))
  /\ trace out = [EvOpenProcess PROCESS_ALL_ACCESS false 1234]
  /\ obj (st out) = obj (mkSt fresh_object boot).
Proof.
  apply (init_open_failure (sim FailOpen) 1234 PyNone PyNone
           (mkSt fresh_object boot) (OSError "The parameter is incorrect")
           boot).
  reflexivity.
Defined.

(** *** Construction failures *)

(** C1: the constructor at three failing constructions, each after the
    process handle was opened.  (1) [_inject_dll] raises: cleanup runs
    and the handle is closed, but the error that leaves the constructor
    is a plain [RemotePythonError], not an [InitializationError]; the
    [raise InitializationError] of line 59 is never reached, because
    [_inject_and_initialize] raises instead of returning [False].
    (2) [_initialize_cache] raises: lines 55-56 stand outside any [try],
    so no cleanup runs at all; the raw error leaves the constructor,
    [_close_process] is never called and the handle stays open.  (3) The
    runtime is unusable: the remote finalize fails during cleanup, the
    unload is skipped with it, and the library stays loaded in the
    target. *)
Theorem construction_failures_break_contract :
  (let out := construct (sim FailInject) 1234 PyNone PyNone boot in
   res out = Raise (Exc RemotePythonError
                "Injection/initialization failed: remote allocation failed")
   /\ is_InitializationError RemotePythonError = false
   /\ trace out = [EvOpenProcess PROCESS_ALL_ACCESS false 1234;
                   EvGetModuleFileNameEx (PyInt 500) 0;
                   EvGetDefaultPythonDll;
                   EvInitializeCache PyNone;
                   EvInjectDll (PyStr "python311.dll");
                   EvCloseProcess;
                   EvCloseCache]
   /\ handle_open (world (st out)) = false)
  /\ (let out := construct (sim FailCache) 1234 PyNone PyNone boot in
      res out = Raise (OSError "cannot open the cache file")
      /\ trace out = [EvOpenProcess PROCESS_ALL_ACCESS false 1234;
                      EvGetModuleFileNameEx (PyInt 500) 0;
                      EvGetDefaultPythonDll;
                      EvInitializeCache PyNone]
      /\ handle_open (world (st out)) = true)
  /\ (let out := construct (sim FailRuntime) 1234 PyNone PyNone boot in
      res out = Raise (Exc RemotePythonError
             "Injection/initialization failed: Python initialization failed")
      /\ trace out = [EvOpenProcess PROCESS_ALL_ACCESS false 1234;
                      EvGetModuleFileNameEx (PyInt 500) 0;
                      EvGetDefaultPythonDll;
                      EvInitializeCache PyNone;
                      EvInjectDll (PyStr "python311.dll");
                      EvIsPythonInjected;
                      EvInitializePython;
                      EvIsPythonInitialized;
                      EvExecuteRemote "Py_Finalize" [];
                      EvCloseProcess;
                      EvCloseCache]
      /\ module_loaded (world (st out)) = true).
Proof. repeat split; reflexivity. Qed.

(** *** [cleanup] *)



(** C4 fails as stated.  On the simulated target, [run] after [cleanup]
    fails like any failed execution, with the [RemotePythonError] wrapper
    around the operating-system error, and [set_python_path] lets the
    operating-system error through as it is.  On the stub target, where
    remote calls keep succeeding, [run] after [cleanup] returns 0. *)
Lemma run_after_cleanup_counterexample :
  (let closed := st (cleanup (sim NoFault) (ready NoFault)) in
   res (run (sim NoFault) (PyStr "noop") closed)
   = Raise (Exc RemotePythonError
                "Code execution failed: The handle is invalid")
   /\ res (set_python_path (sim NoFault) ["C:\a"] closed)
      = Raise (OSError "The handle is invalid"))
  /\ (let session := st (construct stub 1234 PyNone PyNone tt) in
      let closed := st (cleanup stub session) in
      res (cleanup stub session) = Return PyNone
      /\ res (run stub (PyStr "noop") closed) = Return (PyInt 0)).
Proof. repeat split; reflexivity. Qed.

(** *** [set_python_path] *)

(** The two paths of the specification's example are in normal form and
    reach the runtime as "C:\a;C:\b". *)
Lemma set_python_path_forwards_witness :
  trace (set_python_path (sim NoFault) ["C:\a"; "C:\b"] (ready NoFault))
  = [EvExecuteRemote "PySys_SetPath" [PyStr "C:\a;C:\b"]].
Proof.
  destruct (set_python_path_forwards (sim NoFault) ["C:\a"; "C:\b"]
              (ready NoFault)) as [Htrace Hfix].
  rewrite Htrace, Hfix; [reflexivity |].
  repeat constructor.
Defined.

(** C6 fails as stated: a path written with forward slashes is not
    forwarded as given.  The joined input is "C:/a;C:\b"; what reaches the
    runtime is "C:\a;C:\b". *)
Lemma set_python_path_counterexample :
  join ";" ["C:/a"; "C:\b"] = "C:/a;C:\b"
  /\ trace (set_python_path (sim NoFault) ["C:/a"; "C:\b"] (ready NoFault))
     = [EvExecuteRemote "PySys_SetPath" [PyStr "C:\a;C:\b"]]
  /\ "C:\a;C:\b" <> join ";" ["C:/a"; "C:\b"].
Proof. repeat split; try reflexivity. intros H. discriminate H. Qed.

(** *** The address cache *)

(** Two resolutions of [Py_Finalize] from a cold cache: the same address
    twice and one parse. *)
Lemma resolve_twice_same_address_witness :
  let first :=
    Resolver.resolveAddress Resolver.python311_exports Resolver.python311
                            "Py_Finalize" Resolver.fresh in
  fst first = Return 1879052288%Z
  /\ Resolver.resolveAddress Resolver.python311_exports Resolver.python311
                             "Py_Finalize" (snd first)
     = (Return 1879052288%Z, snd first)
  /\ Resolver.parses (snd first) = 1.
Proof.
  intros first.
  destruct (resolve_twice_same_address Resolver.python311_exports
              Resolver.python311 "Py_Finalize" Resolver.fresh (snd first)
              1879052288%Z) as (Hsecond & _ & Hparses).
  - reflexivity.
  - split; [reflexivity |]. split; [exact Hsecond | exact Hparses].
Defined.

End Executions.

(** ** Further executions on the simulated target *)

Section MoreExecutions.
Import Sim Variants.

Lemma init_success_calls_and_attributes_witness :
  let P := sim NoFault in
  let s := mkSt fresh_object boot in
  let out := __init__ P 1234 PyNone PyNone s in
  PyNone = PyNone
  /\ exists h exe dll_path cache dll injected x initialized address
            w1 w2 w3 w4 w5 w6 w7 w8 w9,
       let o1 := with_process (obj s) (mkProcessInfo 1234 h exe) in
       let o2 := with_dll_path o1 dll_path in
       let o3 := with_proc_cache o2 cache in
       let o4 := with_remote_dll o3 dll in
       OpenProcess P PROCESS_ALL_ACCESS false 1234 (world s) = (Return h, w1)
       /\ GetModuleFileNameEx P h 0 w1 = (Return exe, w2)
       /\ (if truthy PyNone
           then dll_path = PyNone /\ w3 = w2
           else _get_default_python_dll P o1 w2 = (Return dll_path, w3))
       /\ _initialize_cache P PyNone o2 w3 = (Return cache, w4)
       /\ _inject_dll P dll_path o3 w4 = (Return dll, w5)
       /\ is_python_injected P o4 w5 = (Return injected, w6)
       /\ truthy injected = true
       /\ _initialize_python P o4 w6 = (Return x, w7)
       /\ is_python_initialized P o4 w7 = (Return initialized, w8)
       /\ truthy initialized = true
       /\ _get_proc_address P "Py_Finalize" o4 w8 = (Return address, w9)
       /\ st out = mkSt o4 w9
       /\ trace out
          = [EvOpenProcess PROCESS_ALL_ACCESS false 1234;
             EvGetModuleFileNameEx h 0]
            ++ (if truthy PyNone then [] else [EvGetDefaultPythonDll])
            ++ [EvInitializeCache PyNone;
                EvInjectDll dll_path;
                EvIsPythonInjected;
                EvInitializePython;
                EvIsPythonInitialized;
                EvGetProcAddress "Py_Finalize"].
Proof.
  apply (init_success_calls_and_attributes (sim NoFault) 1234 PyNone PyNone
           (mkSt fresh_object boot) PyNone).
  reflexivity.
Defined.

Lemma init_closes_only_after_injection_witness :
  (exists d, In (EvInjectDll d)
                (trace (__init__ (sim FailInject) 1234 PyNone PyNone
                                 (mkSt fresh_object boot))))
  /\ (exists e, res (__init__ (sim FailInject) 1234 PyNone PyNone
                              (mkSt fresh_object boot)) = Raise e)
  /\ List.filter is_close_process
       (trace (__init__ (sim FailInject) 1234 PyNone PyNone
                        (mkSt fresh_object boot)))
     = [EvCloseProcess].
Proof.
  apply (init_closes_only_after_injection (sim FailInject) 1234 PyNone
           PyNone (mkSt fresh_object boot)).
  vm_compute. tauto.
Defined.

Lemma init_failure_before_injection_skips_cleanup_witness :
  let out := __init__ (sim FailCache) 1234 PyNone PyNone
                      (mkSt fresh_object boot) in
  forallb (is_preparation 1234 PyNone) (trace out) = true
  /\ ~ In EvCloseProcess (trace out)
  /\ exists e,
       res out = Raise e
       /\ ((exc_cls e = RemotePythonError
            /\ exists cause,
                 exc_msg e
                 = "Failed to initialize process: " +:+ exc_msg cause)
           \/ (exists o w,
                  fst (_get_default_python_dll (sim FailCache) o w) = Raise e)
           \/ (exists o w,
                  fst (_initialize_cache (sim FailCache) PyNone o w)
                  = Raise e)).
Proof.
  apply (init_failure_before_injection_skips_cleanup (sim FailCache) 1234
           PyNone PyNone (mkSt fresh_object boot)).
  intros d H. vm_compute in H.
  repeat (destruct H as [H | H]; [discriminate H |]). exact H.
Defined.

Lemma init_own_errors_never_escape_witness :
  let e := Exc InitializationError "cache unavailable" in
  (exists o w, fst (_get_default_python_dll cache_unavailable o w) = Raise e)
  \/ (exists o w,
         fst (_initialize_cache cache_unavailable PyNone o w) = Raise e)
  \/ (exists o w, fst (_close_process cache_unavailable o w) = Raise e)
  \/ (exists o w, fst (_close_cache cache_unavailable o w) = Raise e).
Proof.
  apply (init_own_errors_never_escape cache_unavailable 1234 PyNone PyNone
           (mkSt fresh_object boot)).
  - reflexivity.
  - right. reflexivity.
Defined.

Lemma init_module_name_failure_drops_handle_witness :
  let out := __init__ Variants.module_name_denied 1234 PyNone PyNone
                      (mkSt fresh_object boot) in
  res out = Raise (Exc RemotePythonError
                       ("Failed to initialize process: "
                        +:+ exc_msg (OSError "Access is denied")))
  /\ trace out = [EvOpenProcess PROCESS_ALL_ACCESS false 1234;
                  EvGetModuleFileNameEx (PyInt 500) 0]
  /\ st out = mkSt (obj (mkSt fresh_object boot))
                   (mkWorld true false false false).
Proof.
  apply (init_module_name_failure_drops_handle Variants.module_name_denied
           1234 PyNone PyNone (mkSt fresh_object boot) (PyInt 500)
           (OSError "Access is denied") (mkWorld true false false false)
           (mkWorld true false false false)); reflexivity.
Defined.

Lemma injection_check_failure_finalizes_uninitialized_witness :
  let out := _inject_and_initialize Variants.module_not_listed prepared in
  _remote_dll (obj (st out)) = Some (PyInt 1879048192)
  /\ (exists t,
         trace out = EvInjectDll (PyStr "python311.dll") :: EvIsPythonInjected
                       :: EvExecuteRemote "Py_Finalize" [] :: t
         /\ forallb is_cleanup_call t = true)
  /\ (res out = Raise (Exc RemotePythonError
         "Injection/initialization failed: Python DLL injection failed")
      \/ exists e w,
           res out = Raise e
           /\ (fst (_close_process Variants.module_not_listed
                                   (obj (st out)) w) = Raise e
               \/ fst (_close_cache Variants.module_not_listed
                                    (obj (st out)) w) = Raise e)).
Proof.
  apply (injection_check_failure_finalizes_uninitialized
           Variants.module_not_listed prepared (PyStr "python311.dll")
           (PyInt 1879048192) (PyBool false)
           (mkWorld true true false true) (mkWorld true true false true));
    reflexivity.
Defined.

Lemma injection_failure_skips_finalize_witness :
  let out := _inject_and_initialize (sim FailInject) prepared in
  obj (st out) = obj prepared
  /\ ((trace out = [EvInjectDll (PyStr "python311.dll"); EvCloseProcess]
       /\ exists e, res out = Raise e
                    /\ fst (_close_process (sim FailInject) (obj prepared)
                                           (world prepared)) = Raise e)
      \/ (trace out = [EvInjectDll (PyStr "python311.dll"); EvCloseProcess;
                       EvCloseCache]
          /\ (res out = Raise (Exc RemotePythonError
                 ("Injection/initialization failed: "
                  +:+ exc_msg (OSError "remote allocation failed")))
              \/ exists e w,
                   res out = Raise e
                   /\ fst (_close_cache (sim FailInject) (obj prepared) w)
                      = Raise e))).
Proof.
  apply (injection_failure_skips_finalize (sim FailInject) prepared
           (PyStr "python311.dll") (OSError "remote allocation failed")
           (world prepared)); reflexivity.
Defined.

Lemma cleanup_without_module_witness :
  (trace (cleanup (sim NoFault) prepared) = [EvCloseProcess]
   \/ trace (cleanup (sim NoFault) prepared)
      = [EvCloseProcess; EvCloseCache])
  /\ world (st (cleanup (sim NoFault) prepared))
     = match _close_process (sim NoFault) (obj prepared) (world prepared)
       with
       | (Raise _, w2) => w2
       | (Return _, w2) => snd (_close_cache (sim NoFault) (obj prepared) w2)
       end.
Proof.
  apply (cleanup_without_module (sim NoFault) prepared). reflexivity.
Defined.

Lemma cleanup_finalize_failure_skips_unload_witness :
  let s := ready FailExecute in
  let out := cleanup (sim FailExecute) s in
  forallb (fun ev => negb (is_unload ev)) (trace out) = true
  /\ exists tail,
       trace out
       = EvExecuteRemote "Py_Finalize" []
           :: diagnostic (obj s) (OSError "remote thread failed")
         ++ EvCloseProcess :: tail
       /\ (tail = [] \/ tail = [EvCloseCache])
       /\ res out
          = match _close_process (sim FailExecute) (obj s) (world s) with
            | (Raise e, _) => Raise e
            | (Return _, w2) =>
                match fst (_close_cache (sim FailExecute) (obj s) w2) with
                | Return _ => Return PyNone
                | Raise e => Raise e
                end
            end.
Proof.
  apply (cleanup_finalize_failure_skips_unload (sim FailExecute)
           (ready FailExecute) (PyInt 1879048192)
           (OSError "remote thread failed") (world (ready FailExecute)));
    reflexivity.
Defined.

Lemma cleanup_prints_only_swallowed_failure_witness :
  let s := ready_debug FailExecute in
  let text := "Cleanup error: remote thread failed" in
  length (List.filter is_print (trace (cleanup (sim FailExecute) s))) = 1
  /\ (exists dbg, _debug (obj s) = Some dbg /\ truthy dbg = true)
  /\ exists dll cause w,
       _remote_dll (obj s) = Some dll
       /\ text = "Cleanup error: " +:+ exc_msg cause
       /\ (fst (_execute_remote (sim FailExecute) "Py_Finalize" [] (obj s) w)
           = Raise cause
           \/ fst (_unload_dll (sim FailExecute) dll (obj s) w)
              = Raise cause).
Proof.
  apply (cleanup_prints_only_swallowed_failure (sim FailExecute)
           (ready_debug FailExecute) "Cleanup error: remote thread failed").
  vm_compute. tauto.
Defined.

Lemma exit_returns_falsy_witness : truthy PyNone = false.
Proof.
  apply (exit_returns_falsy (sim NoFault) (ready NoFault) PyNone).
  reflexivity.
Defined.

Lemma set_python_path_concat_witness :
  exists a b,
    trace (set_python_path (sim NoFault) ["C:\a"; "C:\b"] (ready NoFault))
    = [EvExecuteRemote "PySys_SetPath" [PyStr a]]
    /\ trace (set_python_path (sim NoFault) ["D:\lib"] (ready NoFault))
       = [EvExecuteRemote "PySys_SetPath" [PyStr b]]
    /\ trace (set_python_path (sim NoFault)
                (["C:\a"; "C:\b"] ++ ["D:\lib"]) (ready NoFault))
       = [EvExecuteRemote "PySys_SetPath" [PyStr (a +:+ ";" +:+ b)]].
Proof.
  apply (set_python_path_concat (sim NoFault) ["C:\a"; "C:\b"] ["D:\lib"]
           (ready NoFault)); discriminate.
Defined.

End MoreExecutions.
